(** * RandintGenerator: a shallow embedding of [src/models/sensor.py]

    The sensor class keeps six configuration fields and draws integers
    from numpy's process-wide random source.  Python integers are [Z],
    Python floats are rationals extended with NaN and the infinities,
    dictionaries are [gmap]s, and every method is a function from the
    state before the call to its outcome and the state after it. *)

From Stdlib Require Import ZArith QArith Lia.
From stdpp Require Import gmap strings list fin_maps pretty.

Set Warnings "-register-all,-clear-no-such-hyp".
Local Open Scope string_scope.
Local Open Scope Z_scope.

(** ** Python values *)

(** A Python [float]: a finite double is a rational number; the
    operations the sensor applies ([int], [<= 0], truthiness) are exact on
    rationals. *)
Inductive pyfloat :=
| FFinite (q : Q)
| FNaN
| FInf (negative : bool).

(** The values a [do_command] mapping can hold ([viam.utils.ValueTypes]). *)
Inductive pyval :=
| PNone
| PBool (b : bool)
| PInt (z : Z)
| PFloat (f : pyfloat)
| PStr (s : string)
| PList (items : list pyval)
| PDict (items : list (string * pyval)).

(** Exception messages, kept structured instead of formatted. *)
Inductive message :=
| MsgNamesMismatch (len : nat) (num : Z)
| MsgLowHigh (lo hi : Z)
| MsgDtype (got : string)
| MsgMissingCommand
| MsgReseedRequiresSeed
| MsgSeedNotInteger
| MsgBatchSize
| MsgNotImplemented (cmd : pyval)
| MsgNaNToInt
| MsgInfToInt
| MsgNumpy.

Inductive exn :=
| ValueError (m : message)
| OverflowError (m : message)
| NotImplementedError (m : message)
| AttributeError (name : string)
| IndexError.

Inductive result (A : Type) :=
| Return (a : A)
| Raise (e : exn).
Arguments Return {A} a.
Arguments Raise {A} e.

#[global] Instance result_ret : MRet result := @Return.
#[global] Instance result_bind : MBind result := fun A B f r =>
  match r with
  | Return a => f a
  | Raise e => Raise e
  end.

(** [int(x)] on a float truncates toward zero; NaN and the infinities
    raise. *)
Definition int_of_float (f : pyfloat) : result Z :=
  match f with
  | FFinite q => Return (Z.quot (Qnum q) (Z.pos (Qden q)))
  | FNaN => Raise (ValueError MsgNaNToInt)
  | FInf _ => Raise (OverflowError MsgInfToInt)
  end.

(** [isinstance(v, (int, float))]; [bool] is a subclass of [int]. *)
Definition isinstance_int_float (v : pyval) : bool :=
  match v with
  | PBool _ | PInt _ | PFloat _ => true
  | _ => false
  end.

(** [v <= 0] for a value that passed [isinstance_int_float]. *)
Definition le_zero (v : pyval) : bool :=
  match v with
  | PBool b => negb b
  | PInt z => z <=? 0
  | PFloat (FFinite q) => Qle_bool q 0
  | PFloat FNaN => false
  | PFloat (FInf negative) => negative
  | _ => false
  end.

(** [int(v)] for a value that passed [isinstance_int_float]. *)
Definition int_of_number (v : pyval) : result Z :=
  match v with
  | PBool b => Return (if b then 1 else 0)
  | PInt z => Return z
  | PFloat f => int_of_float f
  | _ => Raise (ValueError MsgSeedNotInteger)
  end.

(** Truthiness, as tested by [if not cmd]. *)
Definition truthy (v : pyval) : bool :=
  match v with
  | PNone => false
  | PBool b => b
  | PInt z => negb (z =? 0)
  | PFloat (FFinite q) => negb (Qeq_bool q 0)
  | PFloat _ => true
  | PStr s => negb (String.eqb s "")
  | PList items => match items with [] => false | _ => true end
  | PDict items => match items with [] => false | _ => true end
  end.

(** [v == s] for a string literal [s]. *)
Definition eq_str (v : pyval) (s : string) : bool :=
  match v with
  | PStr t => String.eqb t s
  | _ => false
  end.

(** A dictionary built by inserting the pairs from left to right: a key
    that occurs again is rebound. *)
Definition dict_of {V : Type} (pairs : list (string * V)) : gmap string V :=
  foldl (fun d kv => <[kv.1 := kv.2]> d) ∅ pairs.

(** ** protobuf [Value] *)

Inductive Value :=
| NullValue
| NumberValue (f : pyfloat)
| StringValue (s : string)
| BoolValue (b : bool)
| StructValue (fields : list (string * Value))
| ListValue (values : list Value).

(** Reading a field of the [kind] oneof that is not the one set yields the
    field's default. *)
Definition number_value (v : Value) : pyfloat :=
  match v with NumberValue f => f | _ => FFinite 0%Q end.

Definition string_value (v : Value) : string :=
  match v with StringValue s => s | _ => "" end.

Definition list_value_values (v : Value) : list Value :=
  match v with ListValue values => values | _ => [] end.

Definition make_number_value (value : Z) : Value := NumberValue (FFinite (inject_Z value)).
Definition make_string_value (value : string) : Value := StringValue value.

(** ** numpy *)

Inductive np_dtype :=
| int8 | int16 | int32 | int64 | uint8 | uint16 | uint32 | uint64.

Definition valid_dtypes : list string :=
  ["int8"; "int16"; "int32"; "int64"; "uint8"; "uint16"; "uint32"; "uint64"].

(** [getattr(np, name)].  The table is the one [validate_config] admits;
    other attribute names are not modelled and the lookup fails on them. *)
Definition getattr_np (name : string) : result np_dtype :=
  if String.eqb name "int8" then Return int8
  else if String.eqb name "int16" then Return int16
  else if String.eqb name "int32" then Return int32
  else if String.eqb name "int64" then Return int64
  else if String.eqb name "uint8" then Return uint8
  else if String.eqb name "uint16" then Return uint16
  else if String.eqb name "uint32" then Return uint32
  else if String.eqb name "uint64" then Return uint64
  else Raise (AttributeError name).

Definition iinfo_min (dt : np_dtype) : Z :=
  match dt with
  | int8 => - 2 ^ 7 | int16 => - 2 ^ 15 | int32 => - 2 ^ 31 | int64 => - 2 ^ 63
  | uint8 | uint16 | uint32 | uint64 => 0
  end.

Definition iinfo_max (dt : np_dtype) : Z :=
  match dt with
  | int8 => 2 ^ 7 - 1 | int16 => 2 ^ 15 - 1 | int32 => 2 ^ 31 - 1 | int64 => 2 ^ 63 - 1
  | uint8 => 2 ^ 8 - 1 | uint16 => 2 ^ 16 - 1 | uint32 => 2 ^ 32 - 1 | uint64 => 2 ^ 64 - 1
  end.

(** The process-wide random source [np.random], as the sensor uses it:
    [seed(s)] replaces the whole state or rejects [s]; [randint] is called
    with no [size], with an integer [size] and with a pair.  Each call
    either rejects its arguments or returns the drawn values and the
    advanced state.  [rng_max_size] is the largest number of elements,
    and the largest dimension, of an array the library is sure to build;
    a larger request may be refused. *)
Record RandomSource := {
  rng_state : Type;
  rng_max_size : Z;
  rng_seed : Z -> option rng_state;
  rng_randint : rng_state -> Z -> Z -> np_dtype -> option (Z * rng_state);
  rng_randint_1d : rng_state -> Z -> Z -> Z -> np_dtype -> option (list Z * rng_state);
  rng_randint_2d : rng_state -> Z -> Z -> Z -> Z -> np_dtype -> option (list (list Z) * rng_state);
}.

(** numpy's contract for [randint(low, high, size, dtype)]: the values lie
    in [[low, high)], the result has the requested shape, and the call
    succeeds whenever [low < high], the interval fits the dtype, no
    dimension is negative and the array is not larger than
    [rng_max_size]. *)
Record RandomSourceSpec (R : RandomSource) : Prop := {
  randint_range : forall g lo hi dt v g',
    rng_randint R g lo hi dt = Some (v, g') -> lo <= v < hi;
  randint_1d_shape : forall g lo hi n dt vs g',
    rng_randint_1d R g lo hi n dt = Some (vs, g') ->
    length vs = Z.to_nat n /\ Forall (fun v => lo <= v < hi) vs;
  randint_2d_shape : forall g lo hi r c dt rows g',
    rng_randint_2d R g lo hi r c dt = Some (rows, g') ->
    length rows = Z.to_nat r /\
    Forall (fun row => length row = Z.to_nat c /\ Forall (fun v => lo <= v < hi) row) rows;
  randint_total : forall g lo hi dt,
    lo < hi -> iinfo_min dt <= lo -> hi <= iinfo_max dt + 1 ->
    is_Some (rng_randint R g lo hi dt);
  max_size_nonneg : 0 <= rng_max_size R;
  randint_1d_total : forall g lo hi n dt,
    lo < hi -> iinfo_min dt <= lo -> hi <= iinfo_max dt + 1 ->
    0 <= n <= rng_max_size R ->
    is_Some (rng_randint_1d R g lo hi n dt);
  randint_2d_total : forall g lo hi r c dt,
    lo < hi -> iinfo_min dt <= lo -> hi <= iinfo_max dt + 1 ->
    0 <= r <= rng_max_size R -> 0 <= c <= rng_max_size R ->
    r * c <= rng_max_size R ->
    is_Some (rng_randint_2d R g lo hi r c dt);
}.

(** ** The sensor *)

(** The instance attributes set by [__init__] and [reconfigure]. *)
Record sensor := {
  low : Z;
  high : Z;
  num_readings : Z;
  reading_names : list string;
  dtype : string;
  seed : option Z;
}.

Definition set_low (v : Z) (s : sensor) : sensor :=
  {| low := v; high := high s; num_readings := num_readings s;
     reading_names := reading_names s; dtype := dtype s; seed := seed s |}.
Definition set_high (v : Z) (s : sensor) : sensor :=
  {| low := low s; high := v; num_readings := num_readings s;
     reading_names := reading_names s; dtype := dtype s; seed := seed s |}.
Definition set_num_readings (v : Z) (s : sensor) : sensor :=
  {| low := low s; high := high s; num_readings := v;
     reading_names := reading_names s; dtype := dtype s; seed := seed s |}.
Definition set_reading_names (v : list string) (s : sensor) : sensor :=
  {| low := low s; high := high s; num_readings := num_readings s;
     reading_names := v; dtype := dtype s; seed := seed s |}.
Definition set_dtype (v : string) (s : sensor) : sensor :=
  {| low := low s; high := high s; num_readings := num_readings s;
     reading_names := reading_names s; dtype := v; seed := seed s |}.
Definition set_seed (v : option Z) (s : sensor) : sensor :=
  {| low := low s; high := high s; num_readings := num_readings s;
     reading_names := reading_names s; dtype := dtype s; seed := v |}.

(** [__init__]: the default configuration. *)
Definition init : sensor :=
  {| low := 0; high := 100; num_readings := 1; reading_names := ["value"];
     dtype := "int32"; seed := None |}.

(** The responses of [do_command], one constructor per dictionary shape. *)
Inductive response :=
| ConfigResponse (lo hi num : Z) (names : list string) (dt : string) (sd : option Z)
| ReseededResponse (sd : Z)
| BatchResponse (batch : list Z) (batch_size : Z) (reading_name : string)
| BatchRowsResponse (batch : list (gmap string Z)) (batch_size : Z) (names : list string).

(** [validate_config]: a class method, it reads the attributes only. *)
Definition validate_config (attributes : gmap string Value)
  : result (list string * list string) :=
  _ ← match attributes !! "num_readings", attributes !! "reading_names" with
      | Some nr, Some rn =>
          n ← int_of_float (number_value nr);
          let names := string_value <$> list_value_values rn in
          if decide (Z.of_nat (length names) ≠ n)
          then Raise (ValueError (MsgNamesMismatch (length names) n))
          else Return tt
      | _, _ => Return tt
      end;
  _ ← match attributes !! "low", attributes !! "high" with
      | Some l, Some h =>
          lo ← int_of_float (number_value l);
          hi ← int_of_float (number_value h);
          if decide (hi ≤ lo)
          then Raise (ValueError (MsgLowHigh lo hi))
          else Return tt
      | _, _ => Return tt
      end;
  _ ← match attributes !! "dtype" with
      | Some d =>
          if decide (string_value d ∈ valid_dtypes)
          then Return tt
          else Raise (ValueError (MsgDtype (string_value d)))
      | None => Return tt
      end;
  Return ([], []).

(** [f"value_{i+1}" for i in range(n)]. *)
Definition default_names (n : Z) : list string :=
  (fun i : nat => "value_" +:+ pretty (Z.of_nat i + 1)) <$> seq 0 (Z.to_nat n).

Section Generator.
Context (R : RandomSource).

(** What a method sees: the instance and numpy's global random state. *)
Record world := {
  self : sensor;
  np_random : rng_state R;
}.

(** A method body: it reads and writes the world and returns or
    raises; assignments made before a raise stay. *)
Definition M (A : Type) : Type := world -> result A * world.

#[global] Instance M_ret : MRet M := fun A a w => (Return a, w).
#[global] Instance M_bind : MBind M := fun A B f m w =>
  match m w with
  | (Return a, w') => f a w'
  | (Raise e, w') => (Raise e, w')
  end.

Definition raise {A} (e : exn) : M A := fun w => (Raise e, w).
Definition lift {A} (r : result A) : M A := fun w => (r, w).
Definition getself : M sensor := fun w => (Return (self w), w).
Definition setattr (f : sensor -> sensor) : M unit :=
  fun w => (Return tt, {| self := f (self w); np_random := np_random w |}).

(** [np.random.seed(s)] *)
Definition np_random_seed (s : Z) : M unit := fun w =>
  match rng_seed R s with
  | Some g => (Return tt, {| self := self w; np_random := g |})
  | None => (Raise (ValueError MsgNumpy), w)
  end.

(** [np.random.randint(low, high, dtype=dt)] *)
Definition np_random_randint (lo hi : Z) (dt : np_dtype) : M Z := fun w =>
  match rng_randint R (np_random w) lo hi dt with
  | Some (v, g) => (Return v, {| self := self w; np_random := g |})
  | None => (Raise (ValueError MsgNumpy), w)
  end.

(** [np.random.randint(low, high, size=n, dtype=dt)] *)
Definition np_random_randint_1d (lo hi n : Z) (dt : np_dtype) : M (list Z) := fun w =>
  match rng_randint_1d R (np_random w) lo hi n dt with
  | Some (vs, g) => (Return vs, {| self := self w; np_random := g |})
  | None => (Raise (ValueError MsgNumpy), w)
  end.

(** [np.random.randint(low, high, size=(r, c), dtype=dt)] *)
Definition np_random_randint_2d (lo hi r c : Z) (dt : np_dtype) : M (list (list Z)) := fun w =>
  match rng_randint_2d R (np_random w) lo hi r c dt with
  | Some (rows, g) => (Return rows, {| self := self w; np_random := g |})
  | None => (Raise (ValueError MsgNumpy), w)
  end.

(** [attributes.get(key, default)] *)
Definition attr_get (attributes : gmap string Value) (key : string) (default : Value) : Value :=
  match attributes !! key with Some v => v | None => default end.

Definition reconfigure (attributes : gmap string Value) : M unit :=
  lo ← lift (int_of_float (number_value (attr_get attributes "low" (make_number_value 0))));
  _ ← setattr (set_low lo);
  hi ← lift (int_of_float (number_value (attr_get attributes "high" (make_number_value 100))));
  _ ← setattr (set_high hi);
  n ← lift (int_of_float (number_value (attr_get attributes "num_readings" (make_number_value 1))));
  _ ← setattr (set_num_readings n);
  _ ← match attributes !! "reading_names" with
      | Some rn => setattr (set_reading_names (string_value <$> list_value_values rn))
      | None =>
          if decide (n = 1)
          then setattr (set_reading_names ["value"])
          else setattr (set_reading_names (default_names n))
      end;
  _ ← setattr (set_dtype (string_value (attr_get attributes "dtype" (make_string_value "int32"))));
  match attributes !! "seed" with
  | Some sd =>
      s ← lift (int_of_float (number_value sd));
      _ ← setattr (set_seed (Some s));
      np_random_seed s
  | None => setattr (set_seed None)
  end.

(** [new]: construct with the defaults, then [reconfigure]. *)
Definition new (attributes : gmap string Value) (g : rng_state R) : result unit * world :=
  reconfigure attributes {| self := init; np_random := g |}.

(** [self.reading_names[0]] *)
Definition first_name (names : list string) : M string :=
  match names with
  | name :: _ => mret name
  | [] => raise IndexError
  end.

Definition get_readings : M (gmap string Z) :=
  s ← getself;
  np_dt ← lift (getattr_np (dtype s));
  if decide (num_readings s = 1) then
    value ← np_random_randint (low s) (high s) np_dt;
    name ← first_name (reading_names s);
    mret {[ name := value ]}
  else
    values ← np_random_randint_1d (low s) (high s) (num_readings s) np_dt;
    mret (dict_of (zip (reading_names s) values)).

Definition do_command (command : gmap string pyval) : M response :=
  s ← getself;
  let cmd := default PNone (command !! "command") in
  if negb (truthy cmd) then raise (ValueError MsgMissingCommand)
  else if eq_str cmd "get_config" then
    mret (ConfigResponse (low s) (high s) (num_readings s) (reading_names s) (dtype s) (seed s))
  else if eq_str cmd "reseed" then
    match default PNone (command !! "seed") with
    | PNone => raise (ValueError MsgReseedRequiresSeed)
    | new_seed =>
        if negb (isinstance_int_float new_seed) then raise (ValueError MsgSeedNotInteger)
        else
          sd ← lift (int_of_number new_seed);
          _ ← setattr (set_seed (Some sd));
          _ ← np_random_seed sd;
          mret (ReseededResponse sd)
    end
  else if eq_str cmd "generate_batch" then
    let batch_size := default (PInt 10) (command !! "size") in
    if negb (isinstance_int_float batch_size) || le_zero batch_size
    then raise (ValueError MsgBatchSize)
    else
      size ← lift (int_of_number batch_size);
      np_dt ← lift (getattr_np (dtype s));
      if decide (num_readings s = 1) then
        batch_values ← np_random_randint_1d (low s) (high s) size np_dt;
        name ← first_name (reading_names s);
        mret (BatchResponse batch_values size name)
      else
        batch_values ← np_random_randint_2d (low s) (high s) size (num_readings s) np_dt;
        mret (BatchRowsResponse
                ((fun row => dict_of (zip (reading_names s) row)) <$> batch_values)
                size (reading_names s))
  else raise (NotImplementedError (MsgNotImplemented cmd)).

Definition get_geometries : M (list unit) := mret [].

End Generator.

Arguments self {R} w.
Arguments np_random {R} w.

(** The states the host can bring a sensor to: [__init__], then
    [reconfigure] calls with attributes that [validate_config] accepted.
    A call that raises still leaves the assignments it made. *)
Inductive reachable (R : RandomSource) : world R -> Prop :=
| reachable_init g :
    reachable R {| self := init; np_random := g |}
| reachable_reconfigure attributes deps w :
    reachable R w ->
    validate_config attributes = Return deps ->
    reachable R (reconfigure R attributes w).2.

(** [n] consecutive [get_readings] calls: the outcomes in order and the
    state after the last one. *)
Fixpoint read_many (R : RandomSource) (n : nat) (w : world R)
  : list (result (gmap string Z)) * world R :=
  match n with
  | O => ([], w)
  | S n' =>
      let '(r, w1) := get_readings R w in
      let '(rs, w2) := read_many R n' w1 in
      (r :: rs, w2)
  end.

(** Two sensors hold the same configuration when they agree on every
    field but the stored seed. *)
Definition same_config (s1 s2 : sensor) : Prop :=
  low s1 = low s2 /\ high s1 = high s2 /\ num_readings s1 = num_readings s2 /\
  reading_names s1 = reading_names s2 /\ dtype s1 = dtype s2.

(** The random state after a call is the one before it, or the one a
    single [randint] call on it left behind. *)
Definition kept_or_drawn (R : RandomSource) (g g' : rng_state R) : Prop :=
  g' = g \/
  (exists lo hi dt v, rng_randint R g lo hi dt = Some (v, g')) \/
  (exists lo hi n dt vs, rng_randint_1d R g lo hi n dt = Some (vs, g')) \/
  (exists lo hi r c dt rows, rng_randint_2d R g lo hi r c dt = Some (rows, g')).

(** ** A concrete random source

    A linear congruential generator with numpy's argument checks; it
    instantiates the statements below at concrete inputs. *)
Module Lcg.

Definition next (g : Z) : Z := (1103515245 * g + 12345) mod 2 ^ 31.

Definition accepts (lo hi : Z) (dt : np_dtype) : bool :=
  (lo <? hi) && (iinfo_min dt <=? lo) && (hi <=? iinfo_max dt + 1).

Definition draw (g lo hi : Z) : Z * Z := (lo + next g mod (hi - lo), next g).

Fixpoint draws (n : nat) (g lo hi : Z) : list Z * Z :=
  match n with
  | O => ([], g)
  | S n' =>
      let '(v, g1) := draw g lo hi in
      let '(vs, g2) := draws n' g1 lo hi in
      (v :: vs, g2)
  end.

Fixpoint rows (r c : nat) (g lo hi : Z) : list (list Z) * Z :=
  match r with
  | O => ([], g)
  | S r' =>
      let '(row, g1) := draws c g lo hi in
      let '(rest, g2) := rows r' c g1 lo hi in
      (row :: rest, g2)
  end.

Definition source : RandomSource := {|
  rng_state := Z;
  rng_max_size := 2 ^ 63 - 1;
  rng_seed := fun s => if (0 <=? s) && (s <? 2 ^ 32) then Some s else None;
  rng_randint := fun g lo hi dt =>
    if accepts lo hi dt then Some (draw g lo hi) else None;
  rng_randint_1d := fun g lo hi n dt =>
    if accepts lo hi dt && (0 <=? n) then Some (draws (Z.to_nat n) g lo hi) else None;
  rng_randint_2d := fun g lo hi r c dt =>
    if accepts lo hi dt && (0 <=? r) && (0 <=? c)
    then Some (rows (Z.to_nat r) (Z.to_nat c) g lo hi) else None;
|}.

End Lcg.

(** ** Vocabulary of the statements *)

(** [int(attributes.get(key, default).number_value)] *)
Definition config_int (attributes : gmap string Value) (key : string) (default : Z) : result Z :=
  int_of_float (number_value (attr_get attributes key (make_number_value default))).

(** The names [reconfigure] stores for [n] readings. *)
Definition config_names (attributes : gmap string Value) (n : Z) : list string :=
  match attributes !! "reading_names" with
  | Some rn => string_value <$> list_value_values rn
  | None => if decide (n = 1) then ["value"] else default_names n
  end.

Definition config_dtype (attributes : gmap string Value) : string :=
  string_value (attr_get attributes "dtype" (make_string_value "int32")).


Definition supported_commands : list string := ["get_config"; "reseed"; "generate_batch"].

(** The three checks of [validate_config], one by one. *)
Definition check_names (attributes : gmap string Value) : result unit :=
  match attributes !! "num_readings", attributes !! "reading_names" with
  | Some nr, Some rn =>
      n ← int_of_float (number_value nr);
      let names := string_value <$> list_value_values rn in
      if decide (Z.of_nat (length names) ≠ n)
      then Raise (ValueError (MsgNamesMismatch (length names) n))
      else Return tt
  | _, _ => Return tt
  end.

Definition check_bounds (attributes : gmap string Value) : result unit :=
  match attributes !! "low", attributes !! "high" with
  | Some l, Some h =>
      lo ← int_of_float (number_value l);
      hi ← int_of_float (number_value h);
      if decide (hi ≤ lo)
      then Raise (ValueError (MsgLowHigh lo hi))
      else Return tt
  | _, _ => Return tt
  end.

Definition check_dtype (attributes : gmap string Value) : result unit :=
  match attributes !! "dtype" with
  | Some d =>
      if decide (string_value d ∈ valid_dtypes)
      then Return tt
      else Raise (ValueError (MsgDtype (string_value d)))
  | None => Return tt
  end.

(** The attribute keys [validate_config] reads. *)
Definition validated_keys : list string :=
  ["num_readings"; "reading_names"; "low"; "high"; "dtype"].

(** The attribute keys [reconfigure] reads. *)
Definition config_keys : list string :=
  ["low"; "high"; "num_readings"; "reading_names"; "dtype"; "seed"].

(** ** Concrete inputs *)

Definition number (z : Z) : Value := NumberValue (FFinite (inject_Z z)).

(** [{"low": 5, "high": 10}] *)
Definition bounds_5_10 : gmap string Value :=
  {[ "low" := number 5; "high" := number 10 ]}.

(** [{"low": 10, "high": 5}] *)
Definition bounds_10_5 : gmap string Value :=
  {[ "low" := number 10; "high" := number 5 ]}.

(** [{"num_readings": 3}] *)
Definition three_readings : gmap string Value := {[ "num_readings" := number 3 ]}.

(** [{"low": 200}]: only one bound is given. *)
Definition low_only : gmap string Value := {[ "low" := number 200 ]}.

(** [{"reading_names": ["a", "b"]}]: names without a count. *)
Definition names_only : gmap string Value :=
  {[ "reading_names" := ListValue [StringValue "a"; StringValue "b"] ]}.

(** [{"num_readings": 3, "reading_names": ["a", "b", "a"]}] *)
Definition duplicate_names : gmap string Value :=
  {[ "num_readings" := number 3;
     "reading_names" := ListValue [StringValue "a"; StringValue "b"; StringValue "a"] ]}.

(** [{"command": ""}] *)
Definition empty_command : gmap string pyval := {[ "command" := PStr "" ]}.

(** [{"command": "calibrate", "size": 3}] *)
Definition calibrate_command : gmap string pyval :=
  {[ "command" := PStr "calibrate"; "size" := PInt 3 ]}.

(** [{"command": "reseed", "seed": 42.0}] *)
Definition reseed_42 : gmap string pyval :=
  {[ "command" := PStr "reseed"; "seed" := PFloat (FFinite (inject_Z 42)) ]}.

(** [{"command": "generate_batch"}] *)
Definition batch_default : gmap string pyval := {[ "command" := PStr "generate_batch" ]}.

(** [{"command": "generate_batch", "size": 2.5}] *)
Definition batch_2_5 : gmap string pyval :=
  {[ "command" := PStr "generate_batch"; "size" := PFloat (FFinite (5 # 2)) ]}.

(** [{"low": 5, "high": 10, "seed": nan}] *)
Definition bounds_nan_seed : gmap string Value :=
  <["seed" := NumberValue FNaN]> bounds_5_10.

(** [{"dtype": "uint8", "num_readings": 2}] *)
Definition two_uint8 : gmap string Value :=
  {[ "dtype" := StringValue "uint8"; "num_readings" := number 2 ]}.

(** [{"seed": -1}] *)
Definition seed_minus_1 : gmap string Value := {[ "seed" := number (-1) ]}.

(** [{"high": nan}] *)
Definition high_nan : gmap string Value := {[ "high" := NumberValue FNaN ]}.

(** [{"units": "mm"}]: a key the sensor does not know. *)
Definition units_only : gmap string Value := {[ "units" := StringValue "mm" ]}.

(** A sensor configured with [low = 5], [high = 10], three readings
    named [x], [y], [z], dtype [int8] and seed 7. *)
Definition configured : sensor :=
  {| low := 5; high := 10; num_readings := 3; reading_names := ["x"; "y"; "z"];
     dtype := "int8"; seed := Some 7 |}.

(** [{"reading_names": []}]: an empty list of names, no count. *)
Definition no_names : gmap string Value := {[ "reading_names" := ListValue [] ]}.

(** [{"command": "get_config"}] *)
Definition get_config_command : gmap string pyval := {[ "command" := PStr "get_config" ]}.

(** [{"command": "reseed", "seed": -1}] *)
Definition reseed_minus_1 : gmap string pyval :=
  {[ "command" := PStr "reseed"; "seed" := PInt (-1) ]}.

(** [{"command": "reseed", "seed": "abc"}] *)
Definition reseed_text : gmap string pyval :=
  {[ "command" := PStr "reseed"; "seed" := PStr "abc" ]}.

(** [{"command": "generate_batch", "size": 0.5}] *)
Definition batch_half : gmap string pyval :=
  {[ "command" := PStr "generate_batch"; "size" := PFloat (FFinite (1 # 2)) ]}.

(** [{"command": "generate_batch", "size": inf}] *)
Definition batch_inf : gmap string pyval :=
  {[ "command" := PStr "generate_batch"; "size" := PFloat (FInf false) ]}.

(** [{"command": 5}] *)
Definition numeric_command : gmap string pyval := {[ "command" := PInt 5 ]}.

(** [{"num_readings": -2}] *)
Definition negative_count : gmap string Value := {[ "num_readings" := number (-2) ]}.

(** [{"low": 5, "high": 10, "seed": 42}] *)
Definition bounds_seed_42 : gmap string Value :=
  <["seed" := NumberValue (FFinite (inject_Z 42))]> bounds_5_10.

(** * Properties *)

(** ** The concrete source meets numpy's contract *)

Lemma lcg_accepts_spec lo hi dt :
  Lcg.accepts lo hi dt = true <-> lo < hi /\ iinfo_min dt <= lo /\ hi <= iinfo_max dt + 1.
Proof. unfold Lcg.accepts. rewrite !andb_true_iff. lia. Qed.

Lemma lcg_draw_range g lo hi : lo < hi -> lo <= (Lcg.draw g lo hi).1 < hi.
Proof.
  intros Hlt. unfold Lcg.draw. cbn [fst].
  pose proof (Z.mod_pos_bound (Lcg.next g) (hi - lo)). lia.
Qed.

Lemma lcg_draws_shape n : forall g lo hi,
  lo < hi ->
  length (Lcg.draws n g lo hi).1 = n /\ Forall (fun v => lo <= v < hi) (Lcg.draws n g lo hi).1.
Proof.
  induction n as [|n IH]; intros g lo hi Hlt; cbn [Lcg.draws].
  - split; [reflexivity | constructor].
  - pose proof (lcg_draw_range g lo hi Hlt) as Hd.
    destruct (Lcg.draw g lo hi) as [v g1] eqn:Ed.
    specialize (IH g1 lo hi Hlt).
    destruct (Lcg.draws n g1 lo hi) as [vs g2]. cbn [fst] in *.
    destruct IH as [Hlen Hall]. split; [cbn; lia | by constructor].
Qed.

Lemma lcg_rows_shape r c : forall g lo hi,
  lo < hi ->
  length (Lcg.rows r c g lo hi).1 = r /\
  Forall (fun row => length row = c /\ Forall (fun v => lo <= v < hi) row)
         (Lcg.rows r c g lo hi).1.
Proof.
  induction r as [|r IH]; intros g lo hi Hlt; cbn [Lcg.rows].
  - split; [reflexivity | constructor].
  - pose proof (lcg_draws_shape c g lo hi Hlt) as Hd.
    destruct (Lcg.draws c g lo hi) as [row g1].
    specialize (IH g1 lo hi Hlt).
    destruct (Lcg.rows r c g1 lo hi) as [rest g2]. cbn [fst] in *.
    destruct IH as [Hlen Hall]. split; [cbn; lia | by constructor].
Qed.

Lemma lcg_source_spec : RandomSourceSpec Lcg.source.
Proof.
  split; unfold Lcg.source;
    cbn [rng_randint rng_randint_1d rng_randint_2d rng_max_size].
  - intros g lo hi dt v g' H.
    destruct (Lcg.accepts lo hi dt) eqn:Ha; [|discriminate].
    apply lcg_accepts_spec in Ha.
    assert (Lcg.draw g lo hi = (v, g')) as Hd by congruence.
    pose proof (lcg_draw_range g lo hi ltac:(lia)) as Hr.
    rewrite Hd in Hr. exact Hr.
  - intros g lo hi n dt vs g' H.
    destruct (Lcg.accepts lo hi dt) eqn:Ha; [|discriminate].
    destruct (0 <=? n); [|discriminate].
    apply lcg_accepts_spec in Ha.
    assert (Lcg.draws (Z.to_nat n) g lo hi = (vs, g')) as Hd by (cbn [andb] in H; congruence).
    pose proof (lcg_draws_shape (Z.to_nat n) g lo hi ltac:(lia)) as Hr.
    rewrite Hd in Hr. exact Hr.
  - intros g lo hi r c dt rws g' H.
    destruct (Lcg.accepts lo hi dt) eqn:Ha; [|discriminate].
    destruct (0 <=? r); [|discriminate].
    destruct (0 <=? c); [|discriminate].
    apply lcg_accepts_spec in Ha.
    assert (Lcg.rows (Z.to_nat r) (Z.to_nat c) g lo hi = (rws, g')) as Hd
      by (cbn [andb] in H; congruence).
    pose proof (lcg_rows_shape (Z.to_nat r) (Z.to_nat c) g lo hi ltac:(lia)) as Hr.
    rewrite Hd in Hr. exact Hr.
  - intros g lo hi dt H1 H2 H3.
    assert (Lcg.accepts lo hi dt = true) as -> by (apply lcg_accepts_spec; lia). eauto.
  - lia.
  - intros g lo hi n dt H1 H2 H3 H4.
    assert (Lcg.accepts lo hi dt = true) as -> by (apply lcg_accepts_spec; lia).
    assert ((0 <=? n) = true) as -> by lia. eauto.
  - intros g lo hi r c dt H1 H2 H3 H4 H5 H6.
    assert (Lcg.accepts lo hi dt = true) as -> by (apply lcg_accepts_spec; lia).
    assert ((0 <=? r) = true) as -> by lia.
    assert ((0 <=? c) = true) as -> by lia. eauto.
Qed.

(** ** Dictionaries built by [dict_of] *)

Section DictOf.
Context {V : Type}.
Implicit Types (pairs : list (string * V)) (k : string) (v : V).

Lemma dict_of_snoc pairs k v :
  dict_of (pairs ++ [(k, v)]) = <[k := v]> (dict_of pairs).
Proof. unfold dict_of. by rewrite foldl_app. Qed.

Lemma dict_of_nil : dict_of (@nil (string * V)) = ∅.
Proof. reflexivity. Qed.

(** Every binding of the dictionary is one of the pairs. *)
Lemma dict_of_lookup_Some pairs k v :
  dict_of pairs !! k = Some v -> (k, v) ∈ pairs.
Proof.
  induction pairs as [|[k' v'] pairs IH] using rev_ind.
  - rewrite dict_of_nil, lookup_empty. discriminate.
  - rewrite dict_of_snoc, lookup_insert. case_decide as Hk.
    + intros [= <-]. subst k'. set_solver.
    + intros H. apply IH in H. set_solver.
Qed.

(** The keys are the first components of the pairs. *)
Lemma dict_of_dom pairs :
  dom (dict_of pairs) = (list_to_set pairs.*1 : gset string).
Proof.
  induction pairs as [|[k' v'] pairs IH] using rev_ind.
  - rewrite dict_of_nil. set_solver.
  - rewrite dict_of_snoc, dom_insert_L, IH, fmap_app, list_to_set_app_L.
    set_solver.
Qed.

(** A key is bound to the value of the last pair that carries it. *)
Lemma dict_of_lookup_last pairs (i : nat) k v :
  pairs !! i = Some (k, v) ->
  (forall (j : nat) kv, (i < j)%nat -> pairs !! j = Some kv -> kv.1 ≠ k) ->
  dict_of pairs !! k = Some v.
Proof.
  revert i. induction pairs as [|[k' v'] pairs IH] using rev_ind; intros i Hi Hlast.
  - by rewrite lookup_nil in Hi.
  - rewrite dict_of_snoc.
    destruct (decide (i < length pairs)%nat) as [Hlt|Hge].
    + rewrite lookup_app_l in Hi by done.
      assert (k' ≠ k) as Hne.
      { apply (Hlast (length pairs) (k', v') Hlt).
        by rewrite lookup_app_r, Nat.sub_diag by lia. }
      rewrite lookup_insert_ne by done.
      apply (IH i Hi). intros j kv Hj Hkv.
      apply (Hlast j kv Hj). apply lookup_app_l_Some, Hkv.
    + pose proof (lookup_lt_Some _ _ _ Hi) as Hlen.
      rewrite length_app in Hlen. cbn in Hlen.
      assert (i = length pairs) as -> by lia.
      rewrite lookup_app_r, Nat.sub_diag in Hi by lia.
      injection Hi as -> ->. apply lookup_insert_eq.
Qed.

End DictOf.



(** ** The monad, step by step *)

Ltac run_M :=
  unfold mbind, M_bind, mret, M_ret, lift, setattr, raise, getself,
    np_random_seed, np_random_randint, np_random_randint_1d, np_random_randint_2d,
    first_name in *;
  cbn [self np_random fst snd] in *.

Section Readings.
Context (R : RandomSource) (HR : RandomSourceSpec R).

(** What [get_readings] returns when it returns: one draw under the
    first name, or the draws zipped with the names. *)
Lemma get_readings_Return w readings w' :
  get_readings R w = (Return readings, w') ->
  exists dt, getattr_np (dtype (self w)) = Return dt /\
  if decide (num_readings (self w) = 1) then
    exists value name rest,
      rng_randint R (np_random w) (low (self w)) (high (self w)) dt
        = Some (value, np_random w') /\
      reading_names (self w) = name :: rest /\
      readings = {[ name := value ]} /\ self w' = self w
  else
    exists values,
      rng_randint_1d R (np_random w) (low (self w)) (high (self w))
        (num_readings (self w)) dt = Some (values, np_random w') /\
      readings = dict_of (zip (reading_names (self w)) values) /\ self w' = self w.
Proof.
  intros H. unfold get_readings in H. run_M.
  destruct (getattr_np (dtype (self w))) as [dt|e]; [|discriminate].
  exists dt. split; [reflexivity|].
  destruct (decide (num_readings (self w) = 1)) as [H1|H1]; run_M.
  - destruct (rng_randint R _ _ _ _) as [[value g]|]; [|discriminate].
    run_M. destruct (reading_names (self w)) as [|name rest]; [discriminate|].
    injection H as <- <-. by exists value, name, rest.
  - destruct (rng_randint_1d R _ _ _ _ _) as [[values g]|]; [|discriminate].
    injection H as <- <-. by exists values.
Qed.

(** C1: whenever [get_readings] returns, every value of the returned
    mapping lies in [[low, high)]; with [num_readings == 1] the mapping is
    the single draw under [reading_names[0]], and otherwise it is built
    from [num_readings] draws, each in [[low, high)], zipped with the
    names.  This holds in every state, so in particular after any
    configuration that [validate_config] accepted. *)
Theorem get_readings_within_bounds w readings w' :
  get_readings R w = (Return readings, w') ->
  (forall name value,
     readings !! name = Some value -> low (self w) <= value < high (self w)) /\
  (num_readings (self w) = 1 ->
   exists name value,
     reading_names (self w) !! 0%nat = Some name /\ readings = {[ name := value ]}) /\
  (num_readings (self w) ≠ 1 ->
   exists values,
     length values = Z.to_nat (num_readings (self w)) /\
     Forall (fun v => low (self w) <= v < high (self w)) values /\
     readings = dict_of (zip (reading_names (self w)) values)).
Proof.
  intros Hret. apply get_readings_Return in Hret as [dt [_ Hret]].
  destruct (decide (num_readings (self w) = 1)) as [H1|H1].
  - destruct Hret as (value & name & rest & Hdraw & Hnames & -> & _).
    apply (randint_range R HR) in Hdraw.
    split; [|split; [|done]].
    + intros k v [_ <-]%lookup_singleton_Some. exact Hdraw.
    + intros _. exists name, value. by rewrite Hnames.
  - destruct Hret as (values & Hdraw & -> & _).
    apply (randint_1d_shape R HR) in Hdraw as [Hlen Hall].
    split; [|split; [done|]].
    + intros k v Hkv%dict_of_lookup_Some.
      apply elem_of_zip_r in Hkv.
      rewrite Forall_forall in Hall. by apply Hall.
    + intros _. by exists values.
Qed.

End Readings.

(** After [{"low": 5, "high": 10}] the first reading of the concrete
    source is 7, under the name ["value"]. *)
Lemma get_readings_within_bounds_witness :
  validate_config bounds_5_10 = Return ([], []) /\
  let w := (new Lcg.source bounds_5_10 42).2 in
  get_readings Lcg.source w
    = (Return {[ "value" := 7 ]}, Build_world Lcg.source (self w) 1250496027) /\
  forall name value,
    ({[ "value" := 7 ]} : gmap string Z) !! name = Some value -> 5 <= value < 10.
Proof.
  split; [vm_compute; reflexivity|].
  assert (get_readings Lcg.source (new Lcg.source bounds_5_10 42).2
          = (Return {[ "value" := 7 ]},
             Build_world Lcg.source (self (new Lcg.source bounds_5_10 42).2) 1250496027))
    as Hrun by reflexivity.
  split; [exact Hrun|].
  exact (proj1 (get_readings_within_bounds Lcg.source lcg_source_spec _ _ _ Hrun)).
Defined.

(** ** [reconfigure], case by case *)

Section Reconfigure.
Context (R : RandomSource).
Implicit Types (attributes : gmap string Value) (w : world R).

(** The call raises at the first conversion that fails and keeps what it
    assigned before; once the three integers are read, the five
    configuration fields are replaced and only the seed remains. *)
Lemma reconfigure_run attributes w :
  reconfigure R attributes w =
  match config_int attributes "low" 0 with
  | Raise e => (Raise e, w)
  | Return lo =>
    match config_int attributes "high" 100 with
    | Raise e => (Raise e, Build_world R (set_low lo (self w)) (np_random w))
    | Return hi =>
      match config_int attributes "num_readings" 1 with
      | Raise e =>
          (Raise e, Build_world R (set_high hi (set_low lo (self w))) (np_random w))
      | Return n =>
        let s := {| low := lo; high := hi; num_readings := n;
                    reading_names := config_names attributes n;
                    dtype := config_dtype attributes; seed := seed (self w) |} in
        match attributes !! "seed" with
        | None => (Return tt, Build_world R (set_seed None s) (np_random w))
        | Some sd =>
          match int_of_float (number_value sd) with
          | Raise e => (Raise e, Build_world R s (np_random w))
          | Return x =>
            match rng_seed R x with
            | Some g => (Return tt, Build_world R (set_seed (Some x) s) g)
            | None =>
                (Raise (ValueError MsgNumpy),
                 Build_world R (set_seed (Some x) s) (np_random w))
            end
          end
        end
      end
    end
  end.
Proof.
  unfold reconfigure, config_int, config_names, config_dtype. run_M.
  destruct w as [s0 g0]. cbn [self np_random].
  destruct (int_of_float (number_value (attr_get attributes "low" _))) as [lo|e1];
    [|reflexivity].
  destruct (int_of_float (number_value (attr_get attributes "high" _))) as [hi|e2];
    [|reflexivity].
  destruct (int_of_float (number_value (attr_get attributes "num_readings" _))) as [n|e3];
    [|reflexivity].
  destruct (attributes !! "reading_names") as [rn|]; [|destruct (decide (n = 1))];
    cbn [self np_random];
    (destruct (attributes !! "seed") as [sd|]; [|reflexivity]);
    (destruct (int_of_float (number_value sd)) as [x|e4]; [|reflexivity]);
    cbn [self np_random]; destruct (rng_seed R x); reflexivity.
Qed.

(** Without a seed attribute the call never touches the random source. *)
Lemma reconfigure_no_seed_random attributes w :
  attributes !! "seed" = None ->
  np_random (reconfigure R attributes w).2 = np_random w.
Proof.
  intros Hseed. rewrite reconfigure_run, Hseed.
  destruct (config_int attributes "low" 0); [|reflexivity].
  destruct (config_int attributes "high" 100); [|reflexivity].
  destruct (config_int attributes "num_readings" 1); reflexivity.
Qed.


(** C7: when the attributes carry no [reading_names] and the three
    integers are read, the stored count is [int(num_readings)] and the
    stored names are [["value"]] for a count of 1 and
    [["value_1", ..., "value_N"]] for a count [N > 1]: [N] names, the one
    at index [i] being ["value_"] followed by [i + 1] in decimal. *)
Theorem reconfigure_default_names attributes w lo hi n :
  attributes !! "reading_names" = None ->
  config_int attributes "low" 0 = Return lo ->
  config_int attributes "high" 100 = Return hi ->
  config_int attributes "num_readings" 1 = Return n ->
  let w' := (reconfigure R attributes w).2 in
  num_readings (self w') = n /\
  (n = 1 -> reading_names (self w') = ["value"]) /\
  (1 < n ->
   reading_names (self w') = default_names n /\
   length (reading_names (self w')) = Z.to_nat n /\
   forall i : nat, (i < Z.to_nat n)%nat ->
     reading_names (self w') !! i = Some ("value_" +:+ pretty (Z.of_nat i + 1))).
Proof.
  intros Hnames Hlo Hhi Hn. cbn zeta.
  assert (num_readings (self (reconfigure R attributes w).2) = n /\
          reading_names (self (reconfigure R attributes w).2) = config_names attributes n)
    as [Hnum Hstored].
  { rewrite reconfigure_run, Hlo, Hhi, Hn.
    destruct (attributes !! "seed") as [sd|]; [|done].
    destruct (int_of_float (number_value sd)) as [x|]; [|done].
    by destruct (rng_seed R x). }
  rewrite Hstored. unfold config_names. rewrite Hnames.
  split; [exact Hnum|]. split.
  - intros ->. reflexivity.
  - intros Hgt. rewrite decide_False by lia.
    split; [reflexivity|]. unfold default_names. split.
    + by rewrite length_fmap, length_seq.
    + intros i Hi. rewrite list_lookup_fmap, lookup_seq_lt by done. reflexivity.
Qed.

End Reconfigure.

(** [num_readings = 3] gives [value_1 .. value_3]; the empty
    configuration gives [value]. *)
Lemma reconfigure_default_names_witness :
  reading_names (self (reconfigure Lcg.source three_readings
                         (Build_world Lcg.source init 42)).2)
    = ["value_1"; "value_2"; "value_3"] /\
  reading_names (self (reconfigure Lcg.source ∅ (Build_world Lcg.source init 42)).2)
    = ["value"].
Proof.
  split.
  - refine (eq_trans (proj1 (proj2 (proj2
      (reconfigure_default_names Lcg.source three_readings
         (Build_world Lcg.source init 42) 0 100 3 _ _ _ _)) _)) _);
      [reflexivity | reflexivity | reflexivity | reflexivity | lia | reflexivity].
  - refine (proj1 (proj2
      (reconfigure_default_names Lcg.source ∅
         (Build_world Lcg.source init 42) 0 100 1 _ _ _ _)) _); reflexivity.
Defined.

(** ** States that validation lets through *)

(** C2: [validate_config] compares the bounds only when both are given,
    so [{"low": 200}] is accepted; [reconfigure] then pairs it with the
    default [high = 100] and the reachable state has [low >= high]. *)
Theorem low_only_breaks_bounds :
  validate_config low_only = Return ([], []) /\
  forall (R : RandomSource) (g : rng_state R),
    let r := new R low_only g in
    r.1 = Return tt /\ reachable R r.2 /\
    low (self r.2) = 200 /\ high (self r.2) = 100 /\
    ¬ (low (self r.2) < high (self r.2)).
Proof.
  split; [vm_compute; reflexivity|].
  intros R g. cbn zeta. unfold new.
  split; [reflexivity|]. split.
  - apply (reachable_reconfigure R low_only ([], [])); [constructor|].
    vm_compute; reflexivity.
  - assert (self (reconfigure R low_only (Build_world R init g)).2 = set_low 200 init)
      as -> by (vm_compute; reflexivity).
    cbn. lia.
Qed.

(** C3: [validate_config] compares the number of names with the count
    only when both are given, so [{"reading_names": ["a", "b"]}] is
    accepted; [reconfigure] then stores the two names beside the default
    count 1. *)
Theorem names_only_breaks_length :
  validate_config names_only = Return ([], []) /\
  forall (R : RandomSource) (g : rng_state R),
    let r := new R names_only g in
    r.1 = Return tt /\ reachable R r.2 /\
    num_readings (self r.2) = 1 /\ reading_names (self r.2) = ["a"; "b"] /\
    Z.of_nat (length (reading_names (self r.2))) ≠ num_readings (self r.2).
Proof.
  split; [vm_compute; reflexivity|].
  intros R g. cbn zeta. unfold new.
  split; [reflexivity|]. split.
  - apply (reachable_reconfigure R names_only ([], [])); [constructor|].
    vm_compute; reflexivity.
  - assert (self (reconfigure R names_only (Build_world R init g)).2
            = set_reading_names ["a"; "b"] init)
      as -> by (vm_compute; reflexivity).
    split; [reflexivity|]. split; [reflexivity|]. cbn. lia.
Qed.

(** ** [do_command] *)

Section Commands.
Context (R : RandomSource).
Implicit Types (command : gmap string pyval) (w : world R).

(** The dispatch falls through to the last branch for every truthy value
    that equals none of the three names. *)
Lemma do_command_fallthrough command w cmd :
  default PNone (command !! "command") = cmd ->
  truthy cmd = true ->
  eq_str cmd "get_config" = false ->
  eq_str cmd "reseed" = false ->
  eq_str cmd "generate_batch" = false ->
  do_command R command w = (Raise (NotImplementedError (MsgNotImplemented cmd)), w).
Proof.
  intros Hcmd Ht H1 H2 H3. unfold do_command. run_M.
  rewrite Hcmd, Ht, H1, H2, H3. reflexivity.
Qed.

(** A missing or falsy command is refused before any dispatch. *)
Lemma do_command_falsy command w :
  truthy (default PNone (command !! "command")) = false ->
  do_command R command w = (Raise (ValueError MsgMissingCommand), w).
Proof. intros Hf. unfold do_command. run_M. by rewrite Hf. Qed.

(** C8, as the code has it: a non-empty command name outside
    [supported_commands] raises [NotImplementedError], whatever else the
    mapping holds, and the state is the one before the call. *)
Theorem do_command_unsupported command w name :
  command !! "command" = Some (PStr name) ->
  name ≠ "" ->
  name ∉ supported_commands ->
  do_command R command w
    = (Raise (NotImplementedError (MsgNotImplemented (PStr name))), w).
Proof.
  intros Hcmd Hne Hout.
  apply do_command_fallthrough; [by rewrite Hcmd| | | |]; cbn.
  - apply negb_true_iff, String.eqb_neq, Hne.
  - apply String.eqb_neq. intros ->. apply Hout. set_solver.
  - apply String.eqb_neq. intros ->. apply Hout. set_solver.
  - apply String.eqb_neq. intros ->. apply Hout. set_solver.
Qed.

(** C10: without a ["command"] key, or with the key bound to the empty
    string, the call raises the missing-field [ValueError] and the state is
    the one before the call. *)
Theorem do_command_missing_command command w :
  command !! "command" = None \/ command !! "command" = Some (PStr "") ->
  do_command R command w = (Raise (ValueError MsgMissingCommand), w) /\
  forall m, do_command R command w ≠ (Raise (NotImplementedError m), w).
Proof.
  intros Hcmd.
  assert (do_command R command w = (Raise (ValueError MsgMissingCommand), w)) as Hrun.
  { apply do_command_falsy. by destruct Hcmd as [-> | ->]. }
  split; [exact Hrun|]. intros m. rewrite Hrun. discriminate.
Qed.

(** Every command but [reseed] leaves the random state as it was or as
    one [randint] call left it. *)
Lemma do_command_random command w :
  eq_str (default PNone (command !! "command")) "reseed" = false ->
  kept_or_drawn R (np_random w) (np_random (do_command R command w).2).
Proof.
  intros Hcmd. unfold do_command. run_M. rewrite Hcmd.
  destruct (truthy _); [|by left]. cbn [negb].
  destruct (eq_str _ "get_config"); [by left|].
  destruct (eq_str _ "generate_batch"); [|by left].
  destruct (_ || _); [by left|].
  destruct (int_of_number _) as [size|]; [|by left].
  destruct (getattr_np _) as [dt|]; [|by left].
  destruct (decide (num_readings (self w) = 1)); run_M.
  - destruct (rng_randint_1d R _ _ _ _ _) as [[vs g]|] eqn:Hdraw; [|by left].
    right; right; left.
    exists (low (self w)), (high (self w)), size, dt, vs.
    run_M. by destruct (reading_names (self w)).
  - destruct (rng_randint_2d R _ _ _ _ _ _) as [[rows g]|] eqn:Hdraw; [|by left].
    right; right; right.
    by exists (low (self w)), (high (self w)), size, (num_readings (self w)), dt, rows.
Qed.

Lemma get_readings_random w :
  kept_or_drawn R (np_random w) (np_random (get_readings R w).2).
Proof.
  unfold get_readings. run_M.
  destruct (getattr_np _) as [dt|]; [|by left].
  destruct (decide (num_readings (self w) = 1)); run_M.
  - destruct (rng_randint R _ _ _ _) as [[v g]|] eqn:Hdraw; [|by left].
    right; left. exists (low (self w)), (high (self w)), dt, v.
    run_M. by destruct (reading_names (self w)).
  - destruct (rng_randint_1d R _ _ _ _ _) as [[vs g]|] eqn:Hdraw; [|by left].
    right; right; left.
    by exists (low (self w)), (high (self w)), (num_readings (self w)), dt, vs.
Qed.

End Commands.

(** [calibrate] is not a command of the sensor. *)
Lemma do_command_unsupported_witness :
  do_command Lcg.source calibrate_command (Build_world Lcg.source init 42)
    = (Raise (NotImplementedError (MsgNotImplemented (PStr "calibrate"))),
       Build_world Lcg.source init 42).
Proof.
  apply do_command_unsupported.
  - reflexivity.
  - discriminate.
  - unfold supported_commands. rewrite !elem_of_cons, elem_of_nil.
    intros [H|[H|[H|[]]]]; discriminate H.
Defined.

(** The empty string is a name outside [supported_commands], and it is
    answered with the missing-field [ValueError]. *)
Lemma do_command_empty_name_not_unsupported :
  ¬ (forall (command : gmap string pyval) (w : world Lcg.source) (name : string),
       command !! "command" = Some (PStr name) ->
       name ∉ supported_commands ->
       exists m, do_command Lcg.source command w = (Raise (NotImplementedError m), w)).
Proof.
  intros H.
  destruct (H empty_command (Build_world Lcg.source init 42) "") as [m Hm].
  - reflexivity.
  - unfold supported_commands. rewrite !elem_of_cons, elem_of_nil.
    intros [E|[E|[E|[]]]]; discriminate E.
  - rewrite do_command_falsy in Hm by reflexivity. discriminate Hm.
Qed.

(** The empty name and the empty mapping are refused alike. *)
Lemma do_command_missing_command_witness :
  do_command Lcg.source empty_command (Build_world Lcg.source init 42)
    = (Raise (ValueError MsgMissingCommand), Build_world Lcg.source init 42) /\
  do_command Lcg.source ∅ (Build_world Lcg.source init 42)
    = (Raise (ValueError MsgMissingCommand), Build_world Lcg.source init 42).
Proof.
  split.
  - apply (do_command_missing_command Lcg.source empty_command). right. reflexivity.
  - apply (do_command_missing_command Lcg.source ∅). left. reflexivity.
Defined.

(** ** Seeding *)

Section Seeding.
Context (R : RandomSource).
Implicit Types (command : gmap string pyval) (w : world R).

(** C6: a [reconfigure] call without a seed attribute leaves the random
    state untouched and, when it returns, has cleared the stored seed (it
    returns as soon as the three integers are read).  Beside it, every
    command but [reseed] and every [get_readings] call leave the random
    state as it was or as one [randint] draw advanced it: nothing but
    [reseed] and a seed attribute installs a seeded state. *)
Theorem reconfigure_without_seed_frame attributes w :
  attributes !! "seed" = None ->
  np_random (reconfigure R attributes w).2 = np_random w /\
  ((reconfigure R attributes w).1 = Return tt ->
   seed (self (reconfigure R attributes w).2) = None) /\
  (forall lo hi n,
     config_int attributes "low" 0 = Return lo ->
     config_int attributes "high" 100 = Return hi ->
     config_int attributes "num_readings" 1 = Return n ->
     (reconfigure R attributes w).1 = Return tt) /\
  (forall command w0,
     eq_str (default PNone (command !! "command")) "reseed" = false ->
     kept_or_drawn R (np_random w0) (np_random (do_command R command w0).2)) /\
  (forall w0, kept_or_drawn R (np_random w0) (np_random (get_readings R w0).2)).
Proof.
  intros Hseed. split; [by apply reconfigure_no_seed_random|].
  split; [|split; [|split]].
  - rewrite reconfigure_run, Hseed.
    destruct (config_int attributes "low" 0); [|discriminate].
    destruct (config_int attributes "high" 100); [|discriminate].
    destruct (config_int attributes "num_readings" 1); [|discriminate].
    reflexivity.
  - intros lo hi n Hlo Hhi Hn. by rewrite reconfigure_run, Hlo, Hhi, Hn, Hseed.
  - intros command w0. apply do_command_random.
  - apply get_readings_random.
Qed.

(** With a seed attribute that converts and that the library accepts,
    the random state after the call is the freshly seeded one. *)
Lemma reconfigure_seed_random attributes w sd lo hi n x g :
  attributes !! "seed" = Some sd ->
  config_int attributes "low" 0 = Return lo ->
  config_int attributes "high" 100 = Return hi ->
  config_int attributes "num_readings" 1 = Return n ->
  int_of_float (number_value sd) = Return x ->
  rng_seed R x = Some g ->
  (reconfigure R attributes w).1 = Return tt /\
  np_random (reconfigure R attributes w).2 = g /\
  seed (self (reconfigure R attributes w).2) = Some x.
Proof.
  intros Hseed Hlo Hhi Hn Hx Hg.
  by rewrite reconfigure_run, Hlo, Hhi, Hn, Hseed, Hx, Hg.
Qed.

(** [reseed], case by case. *)
Lemma reseed_run command w :
  default PNone (command !! "command") = PStr "reseed" ->
  do_command R command w =
  let new_seed := default PNone (command !! "seed") in
  match new_seed with
  | PNone => (Raise (ValueError MsgReseedRequiresSeed), w)
  | _ =>
    if isinstance_int_float new_seed then
      match int_of_number new_seed with
      | Raise e => (Raise e, w)
      | Return sd =>
        match rng_seed R sd with
        | Some g =>
            (Return (ReseededResponse sd), Build_world R (set_seed (Some sd) (self w)) g)
        | None =>
            (Raise (ValueError MsgNumpy),
             Build_world R (set_seed (Some sd) (self w)) (np_random w))
        end
      end
    else (Raise (ValueError MsgSeedNotInteger), w)
  end.
Proof.
  intros Hcmd. unfold do_command. run_M. rewrite Hcmd. cbn.
  destruct w as [s g0]. cbn [self np_random].
  destruct (default PNone (command !! "seed")) as [|b|z|f| | |]; cbn; try reflexivity.
  - by destruct (rng_seed R _).
  - by destruct (rng_seed R z).
  - destruct (int_of_float f) as [sd|]; [|reflexivity]. cbn.
    by destruct (rng_seed R sd).
Qed.

(** A [reseed] that returns has stored the converted seed and installed
    the state the library derives from it alone. *)
Lemma reseed_Return command w resp w' :
  default PNone (command !! "command") = PStr "reseed" ->
  do_command R command w = (Return resp, w') ->
  exists sd g,
    int_of_number (default PNone (command !! "seed")) = Return sd /\
    rng_seed R sd = Some g /\
    resp = ReseededResponse sd /\
    w' = Build_world R (set_seed (Some sd) (self w)) g.
Proof.
  intros Hcmd Hrun. rewrite (reseed_run _ _ Hcmd) in Hrun. cbn zeta in Hrun.
  destruct (default PNone (command !! "seed")) as [|b|z|f| | |] eqn:Hsd;
    cbn in Hrun; try discriminate.
  - destruct (rng_seed R _) as [g|] eqn:Hg; [|discriminate].
    injection Hrun as <- <-. by eexists _, g.
  - destruct (rng_seed R z) as [g|] eqn:Hg; [|discriminate].
    injection Hrun as <- <-. by eexists _, g.
  - destruct (int_of_float f) as [sd|] eqn:Hf; [|discriminate]. cbn in Hrun.
    destruct (rng_seed R sd) as [g|] eqn:Hg; [|discriminate].
    injection Hrun as <- <-. by exists sd, g.
Qed.

Lemma same_config_set_seed s1 s2 sd :
  same_config s1 s2 -> set_seed sd s1 = set_seed sd s2.
Proof.
  destruct s1, s2. unfold same_config, set_seed. cbn.
  intros (-> & -> & -> & -> & ->). reflexivity.
Qed.

(** C4: two runs that hold the same configuration, whatever their random
    states and stored seeds were, and that each execute the same [reseed]
    command successfully, answer alike and are left in the same state;
    any number of [get_readings] calls afterwards yields the same
    sequence of outcomes in both. *)
Theorem reseed_reproducible (s1 s2 : sensor) (g1 g2 : rng_state R) command resp w1 :
  same_config s1 s2 ->
  command !! "command" = Some (PStr "reseed") ->
  do_command R command (Build_world R s1 g1) = (Return resp, w1) ->
  do_command R command (Build_world R s2 g2) = (Return resp, w1) /\
  forall n : nat,
    (read_many R n (do_command R command (Build_world R s1 g1)).2).1
    = (read_many R n (do_command R command (Build_world R s2 g2)).2).1.
Proof.
  intros Hsame Hcmd Hrun.
  assert (default PNone (command !! "command") = PStr "reseed") as Hcmd'
    by by rewrite Hcmd.
  assert (do_command R command (Build_world R s2 g2) = (Return resp, w1)) as Hrun2.
  { apply (reseed_Return _ _ _ _ Hcmd') in Hrun as (sd & g & Hsd & Hg & -> & ->).
    rewrite (reseed_run _ _ Hcmd'). cbn zeta. cbn [self np_random].
    rewrite (same_config_set_seed s1 s2 _ Hsame).
    destruct (default PNone (command !! "seed")) as [|b|z|f| | |];
      try (cbn in Hsd; discriminate Hsd);
      cbn [isinstance_int_float]; by rewrite Hsd, Hg. }
  split; [exact Hrun2|]. intros n. by rewrite Hrun, Hrun2.
Qed.

End Seeding.

(** A sensor seeded with 7 is reconfigured without a seed: the random
    state 42 stays and the stored seed is gone. *)
Lemma reconfigure_without_seed_frame_witness :
  let w := Build_world Lcg.source (set_seed (Some 7) init) 42 in
  np_random (reconfigure Lcg.source bounds_5_10 w).2 = 42 /\
  seed (self (reconfigure Lcg.source bounds_5_10 w).2) = None.
Proof.
  cbn zeta.
  pose proof (reconfigure_without_seed_frame Lcg.source bounds_5_10
                (Build_world Lcg.source (set_seed (Some 7) init) 42) eq_refl)
    as (Hrandom & Hseed & _).
  split; [exact Hrandom|]. apply Hseed. reflexivity.
Defined.

(** Two sensors with different random states and stored seeds read the
    same three values after [reseed] with 42. *)
Lemma reseed_reproducible_witness :
  (read_many Lcg.source 3
     (do_command Lcg.source reseed_42 (Build_world Lcg.source init 1)).2).1
  = (read_many Lcg.source 3
     (do_command Lcg.source reseed_42
        (Build_world Lcg.source (set_seed (Some 7) init) 999)).2).1.
Proof.
  refine (proj2 (reseed_reproducible Lcg.source init (set_seed (Some 7) init) 1 999
                   reseed_42 (ReseededResponse 42)
                   (Build_world Lcg.source (set_seed (Some 42) init) 42) _ _ _) 3%nat).
  - repeat split.
  - reflexivity.
  - reflexivity.
Defined.

(** ** [generate_batch] *)

Section Batch.
Context (R : RandomSource) (HR : RandomSourceSpec R).
Implicit Types (command : gmap string pyval) (w : world R).

(** The branch, case by case: the size test, the conversion, the dtype
    lookup, then one array draw. *)
Lemma generate_batch_run command w :
  default PNone (command !! "command") = PStr "generate_batch" ->
  do_command R command w =
  let batch_size := default (PInt 10) (command !! "size") in
  if negb (isinstance_int_float batch_size) || le_zero batch_size
  then (Raise (ValueError MsgBatchSize), w)
  else
    match int_of_number batch_size with
    | Raise e => (Raise e, w)
    | Return size =>
      match getattr_np (dtype (self w)) with
      | Raise e => (Raise e, w)
      | Return dt =>
        if decide (num_readings (self w) = 1) then
          match rng_randint_1d R (np_random w) (low (self w)) (high (self w)) size dt with
          | None => (Raise (ValueError MsgNumpy), w)
          | Some (batch, g) =>
            match reading_names (self w) with
            | name :: _ =>
                (Return (BatchResponse batch size name), Build_world R (self w) g)
            | [] => (Raise IndexError, Build_world R (self w) g)
            end
          end
        else
          match rng_randint_2d R (np_random w) (low (self w)) (high (self w))
                  size (num_readings (self w)) dt with
          | None => (Raise (ValueError MsgNumpy), w)
          | Some (rows, g) =>
              (Return (BatchRowsResponse
                         ((fun row => dict_of (zip (reading_names (self w)) row)) <$> rows)
                         size (reading_names (self w))),
               Build_world R (self w) g)
          end
      end
    end.
Proof.
  intros Hcmd. unfold do_command. run_M. rewrite Hcmd. cbn [truthy eq_str negb].
  change (String.eqb "generate_batch" "") with false.
  change (String.eqb "generate_batch" "get_config") with false.
  change (String.eqb "generate_batch" "reseed") with false.
  change (String.eqb "generate_batch" "generate_batch") with true.
  cbn [negb]. cbn zeta.
  destruct (_ || _); [reflexivity|].
  destruct (int_of_number _) as [size|]; [|reflexivity].
  destruct (getattr_np _) as [dt|]; [|reflexivity].
  destruct (decide (num_readings (self w) = 1)); run_M.
  - destruct (rng_randint_1d R _ _ _ _ _) as [[batch g]|]; [|reflexivity].
    run_M. by destruct (reading_names (self w)).
  - by destruct (rng_randint_2d R _ _ _ _ _ _) as [[rows g]|].
Qed.

(** A positive number converts to a non-negative integer. *)
Lemma int_of_number_nonneg v size :
  le_zero v = false -> int_of_number v = Return size -> 0 <= size.
Proof.
  destruct v as [|b|z|f| | |]; cbn; try discriminate.
  - destruct b; intros _ [= <-]; lia.
  - intros Hz [= <-]. lia.
  - destruct f as [q| |]; cbn; try discriminate.
    intros Hq [= <-]. apply Z.quot_pos; [|lia].
    destruct (Qle_bool q 0) eqn:Hle; [discriminate|].
    assert (¬ (q <= 0)%Q) as Hn by (rewrite <- Qle_bool_iff, Hle; discriminate).
    unfold Qle in Hn. cbn in Hn. lia.
Qed.

(** What a returning [generate_batch] has done, read off the branch. *)
Lemma generate_batch_Return command w resp w' :
  default PNone (command !! "command") = PStr "generate_batch" ->
  do_command R command w = (Return resp, w') ->
  let batch_size := default (PInt 10) (command !! "size") in
  exists size dt,
    isinstance_int_float batch_size = true /\ le_zero batch_size = false /\
    int_of_number batch_size = Return size /\
    getattr_np (dtype (self w)) = Return dt /\ self w' = self w /\
    if decide (num_readings (self w) = 1) then
      exists batch name rest,
        rng_randint_1d R (np_random w) (low (self w)) (high (self w)) size dt
          = Some (batch, np_random w') /\
        reading_names (self w) = name :: rest /\
        resp = BatchResponse batch size name
    else
      exists rows,
        rng_randint_2d R (np_random w) (low (self w)) (high (self w))
          size (num_readings (self w)) dt = Some (rows, np_random w') /\
        resp = BatchRowsResponse
                 ((fun row => dict_of (zip (reading_names (self w)) row)) <$> rows)
                 size (reading_names (self w)).
Proof.
  intros Hcmd Hrun. rewrite (generate_batch_run _ _ Hcmd) in Hrun. cbn zeta in *.
  destruct (isinstance_int_float _); [|discriminate].
  destruct (le_zero _); [discriminate|]. cbn [negb orb] in Hrun.
  destruct (int_of_number _) as [size|]; [|discriminate].
  destruct (getattr_np _) as [dt|]; [|discriminate].
  exists size, dt. do 4 (split; [reflexivity|]).
  destruct (decide (num_readings (self w) = 1)).
  - destruct (rng_randint_1d R _ _ _ _ _) as [[batch g]|]; [|discriminate].
    destruct (reading_names (self w)) as [|name rest]; [discriminate|].
    injection Hrun as <- <-. split; [reflexivity|]. by exists batch, name, rest.
  - destruct (rng_randint_2d R _ _ _ _ _ _) as [[rows g]|]; [|discriminate].
    injection Hrun as <- <-. split; [reflexivity|]. by exists rows.
Qed.

(** C5, as the code has it.  The size is taken from the command, 10 when
    the key is absent.  A size that is not a number or is [<= 0] is
    refused with [ValueError] and the state is kept.  Whenever the call
    returns, the size was a number [> 0] that [int] truncated to [size],
    the sensor is unchanged, and the answer holds exactly [size] rows and
    reports [size] as the batch size: integers beside the first reading
    name when [num_readings == 1], mappings built from [num_readings]
    draws beside the list of reading names otherwise.  And the call does
    return when the conversion succeeds, the dtype is in the table, the
    interval fits it, the array is not larger than the library builds
    and, for a single reading, there is a name (for several, the count is
    not negative). *)
Theorem generate_batch_rows command w :
  command !! "command" = Some (PStr "generate_batch") ->
  let batch_size := default (PInt 10) (command !! "size") in
  (command !! "size" = None -> batch_size = PInt 10) /\
  (isinstance_int_float batch_size = false \/ le_zero batch_size = true ->
   do_command R command w = (Raise (ValueError MsgBatchSize), w)) /\
  (forall resp w',
     do_command R command w = (Return resp, w') ->
     exists size,
       isinstance_int_float batch_size = true /\ le_zero batch_size = false /\
       int_of_number batch_size = Return size /\ 0 <= size /\ self w' = self w /\
       if decide (num_readings (self w) = 1) then
         exists batch name rest,
           reading_names (self w) = name :: rest /\
           resp = BatchResponse batch size name /\
           length batch = Z.to_nat size /\
           Forall (fun v => low (self w) <= v < high (self w)) batch
       else
         exists rows,
           resp = BatchRowsResponse rows size (reading_names (self w)) /\
           length rows = Z.to_nat size /\
           Forall (fun row => exists values,
                     length values = Z.to_nat (num_readings (self w)) /\
                     Forall (fun v => low (self w) <= v < high (self w)) values /\
                     row = dict_of (zip (reading_names (self w)) values)) rows) /\
  (forall size dt,
     isinstance_int_float batch_size = true -> le_zero batch_size = false ->
     int_of_number batch_size = Return size ->
     getattr_np (dtype (self w)) = Return dt ->
     low (self w) < high (self w) ->
     iinfo_min dt <= low (self w) -> high (self w) <= iinfo_max dt + 1 ->
     size <= rng_max_size R ->
     (num_readings (self w) = 1 -> reading_names (self w) ≠ []) ->
     (num_readings (self w) ≠ 1 ->
      0 <= num_readings (self w) <= rng_max_size R /\
      size * num_readings (self w) <= rng_max_size R) ->
     exists resp g,
       do_command R command w = (Return resp, Build_world R (self w) g)).
Proof.
  intros Hcmd. cbn zeta.
  assert (default PNone (command !! "command") = PStr "generate_batch") as Hcmd'
    by by rewrite Hcmd.
  split; [by intros ->|]. split; [|split].
  - intros Hbad. rewrite (generate_batch_run _ _ Hcmd'). cbn zeta.
    by destruct Hbad as [-> | ->]; [|rewrite orb_true_r].
  - intros resp w' Hrun.
    destruct (generate_batch_Return _ _ _ _ Hcmd' Hrun)
      as (size & dt & Hnum & Hpos & Hsize & _ & Hself & Hshape).
    exists size. do 3 (split; [assumption|]).
    split; [by apply (int_of_number_nonneg _ _ Hpos Hsize)|].
    split; [exact Hself|].
    destruct (decide (num_readings (self w) = 1)).
    + destruct Hshape as (batch & name & rest & Hdraw & Hnames & ->).
      apply (randint_1d_shape R HR) in Hdraw as [Hlen Hall].
      by exists batch, name, rest.
    + destruct Hshape as (rows & Hdraw & ->).
      apply (randint_2d_shape R HR) in Hdraw as [Hlen Hrows].
      eexists. split; [reflexivity|]. split; [by rewrite length_fmap|].
      apply Forall_fmap. eapply Forall_impl; [exact Hrows|].
      intros row [Hrow Hall]. cbn. by exists row.
  - intros size dt Hnum Hpos Hsize Hdt Hlt Hmin Hmax Hbound Hone Hmany.
    pose proof (int_of_number_nonneg _ _ Hpos Hsize) as Hnonneg.
    rewrite (generate_batch_run _ _ Hcmd'). cbn zeta.
    rewrite Hnum, Hpos, Hsize, Hdt. cbn [negb orb].
    destruct (decide (num_readings (self w) = 1)) as [H1|H1].
    + destruct (randint_1d_total R HR (np_random w) _ _ size dt Hlt Hmin Hmax
                  ltac:(lia)) as [[batch g] ->].
      destruct (reading_names (self w)) as [|name rest]; [by destruct (Hone H1)|].
      by eexists _, g.
    + destruct (Hmany H1) as [Hn Hprod].
      destruct (randint_2d_total R HR (np_random w) _ _ size (num_readings (self w)) dt
                  Hlt Hmin Hmax ltac:(lia) Hn Hprod) as [[rows g] ->].
      by eexists _, g.
Qed.

End Batch.

(** Without a size the default sensor answers with ten rows. *)
Lemma generate_batch_rows_witness :
  exists batch g,
    do_command Lcg.source batch_default (Build_world Lcg.source init 42)
      = (Return (BatchResponse batch 10 "value"), Build_world Lcg.source init g) /\
    length batch = 10%nat.
Proof.
  destruct (generate_batch_rows Lcg.source lcg_source_spec batch_default
              (Build_world Lcg.source init 42) eq_refl)
    as (_ & _ & Hshape & Hreturns).
  destruct (Hreturns 10 int32 eq_refl eq_refl eq_refl eq_refl eq_refl)
    as (resp & g & Hrun);
    [by vm_compute | by vm_compute | by vm_compute | done | done |].
  destruct (Hshape _ _ Hrun) as (size & _ & _ & [= <-] & _ & _ & Hrows).
  destruct Hrows as (batch & name & rest & [= <- <-] & -> & Hlen & _).
  exists batch, g. split; [exact Hrun | exact Hlen].
Defined.

(** A size of 2.5 is accepted and answered with two rows and a batch
    size of 2: the number of rows is not the size that was asked for. *)
Lemma generate_batch_truncates_size :
  do_command Lcg.source batch_2_5 (Build_world Lcg.source init 42)
    = (Return (BatchResponse [27; 64] 2 "value"), Build_world Lcg.source init 1116302264) /\
  length [27; 64] = 2%nat /\
  ¬ (inject_Z (Z.of_nat (length [27; 64])) == 5 # 2)%Q.
Proof.
  split; [reflexivity|]. split; [reflexivity|].
  unfold Qeq. cbn. lia.
Qed.

(** ** Duplicate reading names *)

Lemma default_names_NoDup n : NoDup (default_names n).
Proof.
  unfold default_names. apply NoDup_fmap_2; [|apply NoDup_seq].
  intros i j Hij. apply (inj (String.app "value_")) in Hij.
  apply (inj pretty) in Hij. lia.
Qed.

(** What validation guarantees when both the count and the names are
    given. *)
Lemma validate_config_names attributes deps nr rn :
  validate_config attributes = Return deps ->
  attributes !! "num_readings" = Some nr ->
  attributes !! "reading_names" = Some rn ->
  exists n, int_of_float (number_value nr) = Return n /\
            Z.of_nat (length (string_value <$> list_value_values rn)) = n.
Proof.
  unfold validate_config. intros Hval Hnr Hrn. rewrite Hnr, Hrn in Hval.
  destruct (int_of_float (number_value nr)) as [n|]; [|discriminate].
  exists n. split; [reflexivity|].
  cbn in Hval. by destruct (decide (_ ≠ n)) as [|Heq%dec_stable].
Qed.

Section Duplicates.
Context (R : RandomSource) (HR : RandomSourceSpec R).



End Duplicates.


(** ** What validation does guarantee *)

(** When both bounds are given, validation has compared them, and
    [reconfigure] stores them before anything else can raise. *)
Theorem reconfigure_validated_bounds (R : RandomSource) attributes deps (w : world R) l h :
  validate_config attributes = Return deps ->
  attributes !! "low" = Some l ->
  attributes !! "high" = Some h ->
  low (self (reconfigure R attributes w).2) < high (self (reconfigure R attributes w).2).
Proof.
  intros Hval Hl Hh.
  assert (exists lo hi, int_of_float (number_value l) = Return lo /\
                        int_of_float (number_value h) = Return hi /\ lo < hi)
    as (lo & hi & Hlo & Hhi & Hlt).
  { unfold validate_config in Hval. rewrite Hl, Hh in Hval.
    destruct (match attributes !! "num_readings" with Some _ => _ | None => _ end);
      [|discriminate].
    cbn in Hval.
    destruct (int_of_float (number_value l)) as [lo|]; [|discriminate].
    destruct (int_of_float (number_value h)) as [hi|]; [|discriminate].
    exists lo, hi. cbn in Hval.
    destruct (decide (hi ≤ lo)); [discriminate|]. repeat split; lia. }
  rewrite reconfigure_run. unfold config_int, attr_get.
  rewrite Hl, Hh. cbv beta iota. rewrite Hlo, Hhi.
  destruct (int_of_float (number_value match attributes !! "num_readings" with
                                        | Some v => v
                                        | None => _
                                        end)) as [n|]; [|exact Hlt].
  destruct (attributes !! "seed") as [sd|]; [|exact Hlt].
  destruct (int_of_float (number_value sd)) as [x|]; [|exact Hlt].
  destruct (rng_seed R x); exact Hlt.
Qed.

(** [{"low": 5, "high": 10}] *)
Lemma reconfigure_validated_bounds_witness :
  low (self (reconfigure Lcg.source bounds_5_10 (Build_world Lcg.source init 42)).2)
  < high (self (reconfigure Lcg.source bounds_5_10 (Build_world Lcg.source init 42)).2).
Proof.
  apply (reconfigure_validated_bounds Lcg.source bounds_5_10 ([], []) _
           (number 5) (number 10)).
  - vm_compute; reflexivity.
  - reflexivity.
  - reflexivity.
Defined.

(** [validate_config] refuses [low = 10, high = 5] and accepts
    [low = 5, high = 10]. *)
Theorem validate_config_bounds_examples :
  validate_config bounds_10_5 = Raise (ValueError (MsgLowHigh 10 5)) /\
  validate_config bounds_5_10 = Return ([], []).
Proof. split; vm_compute; reflexivity. Qed.

(** [get_geometries] returns the empty list in every state and changes
    nothing. *)
Theorem get_geometries_empty (R : RandomSource) (w : world R) :
  get_geometries R w = (Return [], w).
Proof. reflexivity. Qed.

(** When both the count and the names are given, validation has compared
    them, and a [reconfigure] call that returns has stored as many names
    as the count says. *)
Theorem reconfigure_validated_names (R : RandomSource) attributes deps (w : world R) nr rn :
  validate_config attributes = Return deps ->
  attributes !! "num_readings" = Some nr ->
  attributes !! "reading_names" = Some rn ->
  (reconfigure R attributes w).1 = Return tt ->
  Z.of_nat (length (reading_names (self (reconfigure R attributes w).2)))
  = num_readings (self (reconfigure R attributes w).2).
Proof.
  intros Hval Hnr Hrn.
  destruct (validate_config_names _ _ _ _ Hval Hnr Hrn) as (n & Hn & Hlen).
  assert (config_int attributes "num_readings" 1 = Return n) as Hcount
    by (unfold config_int, attr_get; by rewrite Hnr).
  rewrite reconfigure_run, Hcount. unfold config_names. rewrite Hrn.
  destruct (config_int attributes "low" 0); [|discriminate].
  destruct (config_int attributes "high" 100); [|discriminate].
  destruct (attributes !! "seed") as [sd|]; [|intros _; exact Hlen].
  destruct (int_of_float (number_value sd)) as [x|]; [|discriminate].
  destruct (rng_seed R x); [intros _; exact Hlen|discriminate].
Qed.

(** [{"num_readings": 3, "reading_names": ["a", "b", "a"]}] *)
Lemma reconfigure_validated_names_witness :
  Z.of_nat (length (reading_names
     (self (reconfigure Lcg.source duplicate_names (Build_world Lcg.source init 42)).2)))
  = 3.
Proof.
  refine (eq_trans (reconfigure_validated_names Lcg.source duplicate_names ([], []) _
                      (number 3)
                      (ListValue [StringValue "a"; StringValue "b"; StringValue "a"])
                      _ _ _ _) _).
  - vm_compute; reflexivity.
  - reflexivity.
  - reflexivity.
  - reflexivity.
  - reflexivity.
Defined.

(** ** [validate_config], in full *)

Lemma validate_config_checks attributes :
  validate_config attributes =
  (_ ← check_names attributes; _ ← check_bounds attributes;
   _ ← check_dtype attributes; Return ([], [])).
Proof. reflexivity. Qed.

Lemma check_names_Return attributes u :
  check_names attributes = Return u <->
  forall nr rn,
    attributes !! "num_readings" = Some nr ->
    attributes !! "reading_names" = Some rn ->
    int_of_float (number_value nr) = Return (Z.of_nat (length (list_value_values rn))).
Proof.
  unfold check_names. destruct u.
  destruct (attributes !! "num_readings") as [nr|]; [|by split].
  destruct (attributes !! "reading_names") as [rn|]; [|by split].
  split.
  - intros Hval nr' rn' [= <-] [= <-].
    destruct (int_of_float (number_value nr)) as [n|]; [|discriminate].
    cbn in Hval. rewrite length_fmap in Hval.
    destruct (decide (_ ≠ n)) as [|Heq%dec_stable]; [discriminate|]. by rewrite Heq.
  - intros Hn. rewrite (Hn nr rn eq_refl eq_refl). cbn.
    rewrite length_fmap. by rewrite decide_False by (intros Hne; by apply Hne).
Qed.

Lemma check_bounds_Return attributes u :
  check_bounds attributes = Return u <->
  forall l h,
    attributes !! "low" = Some l -> attributes !! "high" = Some h ->
    exists lo hi, int_of_float (number_value l) = Return lo /\
                  int_of_float (number_value h) = Return hi /\ lo < hi.
Proof.
  unfold check_bounds. destruct u.
  destruct (attributes !! "low") as [l|]; [|by split].
  destruct (attributes !! "high") as [h|]; [|by split].
  split.
  - intros Hval l' h' [= <-] [= <-].
    destruct (int_of_float (number_value l)) as [lo|]; [|discriminate].
    destruct (int_of_float (number_value h)) as [hi|]; [|discriminate].
    cbn in Hval. destruct (decide (hi ≤ lo)); [discriminate|].
    exists lo, hi. repeat split; lia.
  - intros Hb. destruct (Hb l h eq_refl eq_refl) as (lo & hi & -> & -> & Hlt).
    cbn. by rewrite decide_False by lia.
Qed.

Lemma check_dtype_Return attributes u :
  check_dtype attributes = Return u <->
  forall d, attributes !! "dtype" = Some d -> string_value d ∈ valid_dtypes.
Proof.
  unfold check_dtype. destruct u.
  destruct (attributes !! "dtype") as [d|]; [|by split].
  split.
  - intros Hval d' [= <-]. by destruct (decide (string_value d ∈ valid_dtypes)).
  - intros Hd. by rewrite decide_True by by apply Hd.
Qed.

(** [validate_config] accepts exactly the attributes that pass the three
    checks, each applied only when its keys are present, and it never
    declares a dependency. *)
Theorem validate_config_Return attributes deps :
  validate_config attributes = Return deps <->
  deps = ([], []) /\
  (forall nr rn,
     attributes !! "num_readings" = Some nr ->
     attributes !! "reading_names" = Some rn ->
     int_of_float (number_value nr) = Return (Z.of_nat (length (list_value_values rn)))) /\
  (forall l h,
     attributes !! "low" = Some l -> attributes !! "high" = Some h ->
     exists lo hi, int_of_float (number_value l) = Return lo /\
                   int_of_float (number_value h) = Return hi /\ lo < hi) /\
  (forall d, attributes !! "dtype" = Some d -> string_value d ∈ valid_dtypes).
Proof.
  rewrite validate_config_checks.
  rewrite <- (check_names_Return attributes tt), <- (check_bounds_Return attributes tt),
    <- (check_dtype_Return attributes tt).
  destruct (check_names attributes) as [[]|e1]; cbn; [|naive_solver].
  destruct (check_bounds attributes) as [[]|e2]; cbn; [|naive_solver].
  destruct (check_dtype attributes) as [[]|e3]; cbn; naive_solver.
Qed.

(** [validate_config] reads five keys and no other: setting or changing
    any other key, the seed in particular, does not change its verdict,
    so the seed is never validated. *)
Theorem validate_config_ignores_other_keys attributes key v :
  key ∉ validated_keys ->
  validate_config (<[key := v]> attributes) = validate_config attributes.
Proof.
  intros Hkey. unfold validated_keys in Hkey.
  rewrite !not_elem_of_cons in Hkey. destruct Hkey as (H1 & H2 & H3 & H4 & H5 & _).
  unfold validate_config. by rewrite !lookup_insert_ne.
Qed.

(** A NaN seed does not disturb validation. *)
Lemma validate_config_ignores_other_keys_witness :
  validate_config bounds_nan_seed = Return ([], []).
Proof.
  refine (eq_trans (validate_config_ignores_other_keys bounds_5_10 "seed"
                      (NumberValue FNaN) _) _).
  - unfold validated_keys. rewrite !not_elem_of_cons.
    repeat split; (discriminate || apply not_elem_of_nil).
  - vm_compute; reflexivity.
Defined.

(** A name of the table is a dtype numpy knows. *)
Lemma getattr_np_valid name :
  name ∈ valid_dtypes -> exists dt, getattr_np name = Return dt.
Proof.
  unfold valid_dtypes. rewrite !elem_of_cons, elem_of_nil.
  intros [->|[->|[->|[->|[->|[->|[->|[->|[]]]]]]]]]; by eexists.
Qed.

(** An accepted dtype attribute names one of the eight dtypes. *)
Lemma validate_config_dtype attributes deps :
  validate_config attributes = Return deps ->
  forall d, attributes !! "dtype" = Some d -> string_value d ∈ valid_dtypes.
Proof.
  rewrite validate_config_checks. intros Hval.
  apply (check_dtype_Return attributes tt).
  destruct (check_names attributes) as [[]|]; [|discriminate].
  destruct (check_bounds attributes) as [[]|]; [|discriminate].
  by destruct (check_dtype attributes) as [[]|].
Qed.

(** After validation the dtype lookup cannot fail: once [reconfigure] has
    read the three integers, the stored dtype is one of the eight names,
    the default ["int32"] when the attribute is absent. *)
Theorem validated_dtype_lookup (R : RandomSource) attributes deps (w : world R) lo hi n :
  validate_config attributes = Return deps ->
  config_int attributes "low" 0 = Return lo ->
  config_int attributes "high" 100 = Return hi ->
  config_int attributes "num_readings" 1 = Return n ->
  dtype (self (reconfigure R attributes w).2) ∈ valid_dtypes /\
  exists dt, getattr_np (dtype (self (reconfigure R attributes w).2)) = Return dt.
Proof.
  intros Hval Hlo Hhi Hn.
  assert (dtype (self (reconfigure R attributes w).2) = config_dtype attributes) as ->.
  { rewrite reconfigure_run, Hlo, Hhi, Hn.
    destruct (attributes !! "seed") as [sd|]; [|done].
    destruct (int_of_float (number_value sd)) as [x|]; [|done].
    by destruct (rng_seed R x). }
  assert (config_dtype attributes ∈ valid_dtypes) as Hin.
  { unfold config_dtype, attr_get.
    destruct (attributes !! "dtype") as [d|] eqn:Hd.
    - by apply (validate_config_dtype _ _ Hval).
    - cbn. unfold valid_dtypes. set_solver. }
  split; [exact Hin|]. by apply getattr_np_valid.
Qed.

(** [{"dtype": "uint8", "num_readings": 2}] *)
Lemma validated_dtype_lookup_witness :
  getattr_np (dtype (self (reconfigure Lcg.source two_uint8
                             (Build_world Lcg.source init 42)).2)) = Return uint8.
Proof.
  destruct (validated_dtype_lookup Lcg.source two_uint8 ([], [])
              (Build_world Lcg.source init 42) 0 100 2)
    as [_ [dt Hdt]]; [vm_compute; reflexivity | reflexivity..|].
  reflexivity.
Defined.

(** ** [reconfigure]: replacement, defaults and partial updates *)

Section Replacement.
Context (R : RandomSource).
Implicit Types (attributes : gmap string Value) (w : world R).

(** A call that returns has replaced the whole configuration: the sensor
    it leaves depends on the attributes alone, not on the state before,
    and whether it returns does not depend on that state either.  In
    particular a second call with the same attributes changes nothing in
    the sensor. *)
Theorem reconfigure_replaces attributes w1 w1' w2 :
  reconfigure R attributes w1 = (Return tt, w1') ->
  (reconfigure R attributes w2).1 = Return tt /\
  self (reconfigure R attributes w2).2 = self w1'.
Proof.
  rewrite !reconfigure_run.
  destruct (config_int attributes "low" 0) as [lo|]; [|discriminate].
  destruct (config_int attributes "high" 100) as [hi|]; [|discriminate].
  destruct (config_int attributes "num_readings" 1) as [n|]; [|discriminate].
  cbn zeta.
  destruct (attributes !! "seed") as [sd|].
  - destruct (int_of_float (number_value sd)) as [x|]; [|discriminate].
    destruct (rng_seed R x) as [g|]; [|discriminate].
    by intros [= <-].
  - by intros [= <-].
Qed.

(** With none of its six keys present, [reconfigure] returns and leaves
    exactly the sensor [__init__] builds, whatever was configured before:
    the defaults written in [reconfigure] are those of the constructor.
    The random state is kept. *)
Theorem reconfigure_defaults attributes w :
  (forall key, key ∈ config_keys -> attributes !! key = None) ->
  reconfigure R attributes w = (Return tt, Build_world R init (np_random w)).
Proof.
  intros Hnone. unfold config_keys in Hnone.
  rewrite reconfigure_run.
  unfold config_int, config_names, config_dtype, attr_get.
  rewrite (Hnone "low"), (Hnone "high"), (Hnone "num_readings"),
    (Hnone "reading_names"), (Hnone "dtype"), (Hnone "seed") by set_solver.
  reflexivity.
Qed.

(** A seed that converts but that the library refuses: the call raises
    only after every field, the seed included, has been stored; the
    random state is the old one. *)
Theorem reconfigure_rejected_seed attributes w sd lo hi n x :
  config_int attributes "low" 0 = Return lo ->
  config_int attributes "high" 100 = Return hi ->
  config_int attributes "num_readings" 1 = Return n ->
  attributes !! "seed" = Some sd ->
  int_of_float (number_value sd) = Return x ->
  rng_seed R x = None ->
  reconfigure R attributes w =
  (Raise (ValueError MsgNumpy),
   Build_world R
     {| low := lo; high := hi; num_readings := n;
        reading_names := config_names attributes n;
        dtype := config_dtype attributes; seed := Some x |}
     (np_random w)).
Proof.
  intros Hlo Hhi Hn Hsd Hx Hg.
  by rewrite reconfigure_run, Hlo, Hhi, Hn, Hsd, Hx, Hg.
Qed.

(** A call that raises never reseeds the random source.  It has either
    failed on one of the three integers, and then count, names, dtype and
    seed are the old ones (only [low] and [high] may have been
    overwritten), or it has failed on the seed, and then the five other
    fields are already the new ones: the update is not atomic. *)
Theorem reconfigure_raise_frame attributes w e w' :
  reconfigure R attributes w = (Raise e, w') ->
  np_random w' = np_random w /\
  ((num_readings (self w') = num_readings (self w) /\
    reading_names (self w') = reading_names (self w) /\
    dtype (self w') = dtype (self w) /\
    seed (self w') = seed (self w))
   \/
   (exists lo hi n sd,
      attributes !! "seed" = Some sd /\
      config_int attributes "low" 0 = Return lo /\
      config_int attributes "high" 100 = Return hi /\
      config_int attributes "num_readings" 1 = Return n /\
      low (self w') = lo /\ high (self w') = hi /\ num_readings (self w') = n /\
      reading_names (self w') = config_names attributes n /\
      dtype (self w') = config_dtype attributes)).
Proof.
  rewrite reconfigure_run.
  destruct (config_int attributes "low" 0) as [lo|e1] eqn:Hlo.
  2:{ intros [= <- <-]. split; [done|]. by left. }
  destruct (config_int attributes "high" 100) as [hi|e2] eqn:Hhi.
  2:{ intros [= <- <-]. split; [done|]. by left. }
  destruct (config_int attributes "num_readings" 1) as [n|e3] eqn:Hn.
  2:{ intros [= <- <-]. split; [done|]. by left. }
  cbn zeta. destruct (attributes !! "seed") as [sd|] eqn:Hsd; [|discriminate].
  destruct (int_of_float (number_value sd)) as [x|e4].
  - destruct (rng_seed R x) as [g|]; [discriminate|].
    intros [= <- <-]. split; [done|]. right. by exists lo, hi, n, sd.
  - intros [= <- <-]. split; [done|]. right. by exists lo, hi, n, sd.
Qed.

End Replacement.

(** The configured sensor, reconfigured with [{"low": 5, "high": 10}]
    twice over. *)
Lemma reconfigure_replaces_witness :
  self (reconfigure Lcg.source bounds_5_10 (Build_world Lcg.source configured 9)).2
  = set_high 10 (set_low 5 init).
Proof.
  refine (proj2 (reconfigure_replaces Lcg.source bounds_5_10
                   (Build_world Lcg.source init 42)
                   (Build_world Lcg.source (set_high 10 (set_low 5 init)) 42)
                   (Build_world Lcg.source configured 9) _)).
  reflexivity.
Defined.

(** An unknown key alone resets the configured sensor to the defaults. *)
Lemma reconfigure_defaults_witness :
  reconfigure Lcg.source units_only (Build_world Lcg.source configured 9)
  = (Return tt, Build_world Lcg.source init 9).
Proof.
  apply (reconfigure_defaults Lcg.source units_only).
  intros key Hkey. apply lookup_singleton_ne.
  unfold config_keys in Hkey. rewrite !elem_of_cons, elem_of_nil in Hkey.
  destruct Hkey as [->|[->|[->|[->|[->|[->|[]]]]]]]; discriminate.
Defined.

(** The concrete source refuses the seed -1. *)
Lemma reconfigure_rejected_seed_witness :
  reconfigure Lcg.source seed_minus_1 (Build_world Lcg.source configured 9)
  = (Raise (ValueError MsgNumpy), Build_world Lcg.source (set_seed (Some (-1)) init) 9).
Proof.
  refine (eq_trans (reconfigure_rejected_seed Lcg.source seed_minus_1
                      (Build_world Lcg.source configured 9) (number (-1)) 0 100 1 (-1)
                      _ _ _ _ _ _) _); reflexivity.
Defined.

(** [{"high": nan}] on the configured sensor: the call fails on [high]
    after [low] has fallen back to 0; the random state stays. *)
Lemma reconfigure_raise_frame_witness :
  reconfigure Lcg.source high_nan (Build_world Lcg.source configured 9)
  = (Raise (ValueError MsgNaNToInt), Build_world Lcg.source (set_low 0 configured) 9) /\
  np_random (Build_world Lcg.source (set_low 0 configured) 9) = 9.
Proof.
  assert (reconfigure Lcg.source high_nan (Build_world Lcg.source configured 9)
          = (Raise (ValueError MsgNaNToInt),
             Build_world Lcg.source (set_low 0 configured) 9)) as Hrun by reflexivity.
  split; [exact Hrun|].
  exact (proj1 (reconfigure_raise_frame Lcg.source high_nan _ _ _ Hrun)).
Defined.

(** ** [get_readings]: when it returns and what it reports *)

Section Channels.
Context (R : RandomSource) (HR : RandomSourceSpec R).
Implicit Types (w : world R).

(** With a dtype of the table, an interval that fits it, a count that is
    not negative and not larger than the arrays the library builds and,
    for a single reading, at least one name, the call returns and leaves
    the sensor as it was. *)
Theorem get_readings_returns w dt :
  getattr_np (dtype (self w)) = Return dt ->
  low (self w) < high (self w) ->
  iinfo_min dt <= low (self w) -> high (self w) <= iinfo_max dt + 1 ->
  0 <= num_readings (self w) <= rng_max_size R ->
  (num_readings (self w) = 1 -> reading_names (self w) ≠ []) ->
  exists readings g,
    get_readings R w = (Return readings, Build_world R (self w) g).
Proof.
  intros Hdt Hlt Hmin Hmax Hn Hnames.
  unfold get_readings. run_M. rewrite Hdt.
  destruct (decide (num_readings (self w) = 1)) as [H1|H1]; run_M.
  - destruct (randint_total R HR (np_random w) _ _ dt Hlt Hmin Hmax) as [[v g] ->].
    run_M. destruct (reading_names (self w)) as [|name rest]; [by destruct Hnames|].
    by eexists _, g.
  - destruct (randint_1d_total R HR (np_random w) _ _ _ dt Hlt Hmin Hmax Hn)
      as [[vs g] ->].
    by eexists _, g.
Qed.

(** With [high <= low] and at least one reading asked for, the call
    raises and the state is the one before it: there is no integer to
    draw. *)
Theorem get_readings_reversed_bounds w :
  high (self w) <= low (self w) ->
  1 <= num_readings (self w) ->
  exists e, get_readings R w = (Raise e, w).
Proof.
  intros Hrev Hn. unfold get_readings. run_M.
  destruct (getattr_np (dtype (self w))) as [dt|e]; [|by exists e].
  destruct (decide (num_readings (self w) = 1)) as [H1|H1]; run_M.
  - destruct (rng_randint R _ _ _ _) as [[v g]|] eqn:Hdraw; [|by eexists].
    apply (randint_range R HR) in Hdraw. lia.
  - destruct (rng_randint_1d R _ _ _ _ _) as [[vs g]|] eqn:Hdraw; [|by eexists].
    apply (randint_1d_shape R HR) in Hdraw as [Hlen Hall].
    destruct vs as [|v vs]; [cbn in Hlen; lia|].
    apply Forall_cons in Hall as [Hv _]. lia.
Qed.

(** A single reading without any name: the integer is drawn first, so
    the call raises [IndexError] with the random state already advanced. *)
Theorem get_readings_without_names w dt :
  num_readings (self w) = 1 ->
  reading_names (self w) = [] ->
  getattr_np (dtype (self w)) = Return dt ->
  low (self w) < high (self w) ->
  iinfo_min dt <= low (self w) -> high (self w) <= iinfo_max dt + 1 ->
  exists v g,
    rng_randint R (np_random w) (low (self w)) (high (self w)) dt = Some (v, g) /\
    get_readings R w = (Raise IndexError, Build_world R (self w) g).
Proof.
  intros H1 Hnames Hdt Hlt Hmin Hmax.
  destruct (randint_total R HR (np_random w) _ _ dt Hlt Hmin Hmax) as [[v g] Hdraw].
  exists v, g. split; [exact Hdraw|].
  unfold get_readings. run_M. rewrite Hdt, decide_True by done. run_M.
  by rewrite Hdraw, Hnames.
Qed.

(** With pairwise distinct names, as many as the count, nothing is lost:
    the mapping has one entry per channel, and the name of channel [i] is
    bound to the [i]-th value of the draw -- the single value of the
    scalar [randint] call for one reading, the array of the sized call
    otherwise -- which lies in [[low, high)]. *)
Theorem get_readings_distinct_names w readings w' :
  NoDup (reading_names (self w)) ->
  Z.of_nat (length (reading_names (self w))) = num_readings (self w) ->
  get_readings R w = (Return readings, w') ->
  size readings = length (reading_names (self w)) /\
  exists dt values,
    getattr_np (dtype (self w)) = Return dt /\
    (if decide (num_readings (self w) = 1) then
       exists value,
         rng_randint R (np_random w) (low (self w)) (high (self w)) dt
           = Some (value, np_random w') /\
         values = [value]
     else
       rng_randint_1d R (np_random w) (low (self w)) (high (self w))
         (num_readings (self w)) dt = Some (values, np_random w')) /\
    length values = length (reading_names (self w)) /\
    forall (i : nat) name,
      reading_names (self w) !! i = Some name ->
      exists v, values !! i = Some v /\ readings !! name = Some v /\
                low (self w) <= v < high (self w).
Proof.
  intros Hnd Hlen Hrun.
  apply get_readings_Return in Hrun as [dt [Hdt Hrun]].
  destruct (decide (num_readings (self w) = 1)) as [H1|H1].
  - destruct Hrun as (value & name & rest & Hdraw & Hnames & -> & _).
    pose proof (randint_range R HR _ _ _ _ _ _ Hdraw) as Hrange.
    rewrite Hnames in Hlen |- *. destruct rest; [|cbn in Hlen; lia].
    split; [by rewrite map_size_singleton|].
    exists dt, [value]. split; [exact Hdt|]. split; [by exists value|].
    split; [reflexivity|].
    intros [|i] name' Hi; [|done]. injection Hi as <-.
    exists value. by rewrite lookup_singleton_eq.
  - destruct Hrun as (values & Hdraw & -> & _).
    pose proof (randint_1d_shape R HR _ _ _ _ _ _ _ Hdraw) as [Hvalues Hall].
    assert (length values = length (reading_names (self w))) as Hsame by lia.
    split.
    + rewrite <- size_dom, dict_of_dom, fst_zip by lia. by apply size_list_to_set.
    + exists dt, values. split; [exact Hdt|]. split; [exact Hdraw|].
      split; [exact Hsame|].
      intros i name Hi.
      destruct (lookup_lt_is_Some_2 values i) as [v Hv].
      { apply lookup_lt_Some in Hi. lia. }
      exists v. split; [exact Hv|]. split.
      * apply (dict_of_lookup_last _ i).
        -- rewrite lookup_zip_with, Hi, Hv. reflexivity.
        -- intros j [k x] Hj Hkx Heq. cbn in Heq. subst k.
           apply lookup_zip_with_Some in Hkx as (k' & x' & [= <- <-] & Hk & _).
           pose proof (NoDup_lookup _ _ _ _ Hnd Hi Hk). lia.
      * rewrite Forall_forall in Hall. apply Hall.
        by apply list_elem_of_lookup_2 in Hv.
Qed.

(** Neither [get_readings] nor any command touches the bounds, the
    count, the names or the dtype; [get_readings] and every command but
    [reseed] leave the stored seed alone as well. *)
Theorem commands_keep_configuration :
  (forall w, self (get_readings R w).2 = self w) /\
  (forall command w, same_config (self w) (self (do_command R command w).2)) /\
  (forall command w,
     eq_str (default PNone (command !! "command")) "reseed" = false ->
     self (do_command R command w).2 = self w).
Proof.
  assert (forall command w,
            eq_str (default PNone (command !! "command")) "reseed" = false ->
            self (do_command R command w).2 = self w) as Hother.
  { intros command w Hcmd. unfold do_command. run_M. rewrite Hcmd.
    destruct (truthy _); [|done]. cbn [negb].
    destruct (eq_str _ "get_config"); [done|].
    destruct (eq_str _ "generate_batch"); [|done].
    destruct (_ || _); [done|].
    destruct (int_of_number _) as [size|]; [|done].
    destruct (getattr_np _) as [dt|]; [|done].
    destruct (decide (num_readings (self w) = 1)); run_M.
    - destruct (rng_randint_1d R _ _ _ _ _) as [[vs g]|]; [|done].
      run_M. by destruct (reading_names (self w)).
    - by destruct (rng_randint_2d R _ _ _ _ _ _) as [[rows g]|]. }
  split; [|split; [|exact Hother]].
  - intros w. unfold get_readings. run_M.
    destruct (getattr_np _) as [dt|]; [|done].
    destruct (decide (num_readings (self w) = 1)); run_M.
    + destruct (rng_randint R _ _ _ _) as [[v g]|]; [|done].
      run_M. by destruct (reading_names (self w)).
    + by destruct (rng_randint_1d R _ _ _ _ _) as [[vs g]|].
  - intros command w.
    destruct (eq_str (default PNone (command !! "command")) "reseed") eqn:Hcmd.
    + assert (default PNone (command !! "command") = PStr "reseed") as Hcmd'.
      { destruct (default PNone (command !! "command")); try discriminate.
        cbn in Hcmd. by apply String.eqb_eq in Hcmd as ->. }
      rewrite (reseed_run _ _ _ Hcmd'). cbn zeta.
      destruct (default PNone (command !! "seed")) as [|b|z|f| | |];
        cbn; try by repeat split.
      * destruct (rng_seed R _); by repeat split.
      * destruct (rng_seed R z); by repeat split.
      * destruct (int_of_float f) as [sd|]; [|by repeat split].
        cbn. destruct (rng_seed R sd); by repeat split.
    + rewrite (Hother _ _ Hcmd). by repeat split.
Qed.

End Channels.

(** The default sensor returns a reading. *)
Lemma get_readings_returns_witness :
  exists readings g,
    get_readings Lcg.source (Build_world Lcg.source init 42)
    = (Return readings, Build_world Lcg.source init g).
Proof.
  apply (get_readings_returns Lcg.source lcg_source_spec
           (Build_world Lcg.source init 42) int32);
    [reflexivity | reflexivity | by vm_compute | by vm_compute | by vm_compute | done].
Defined.

(** The state [{"low": 200}] leads to: no reading can be returned. *)
Lemma get_readings_reversed_bounds_witness :
  exists e,
    get_readings Lcg.source (new Lcg.source low_only 42).2
    = (Raise e, (new Lcg.source low_only 42).2).
Proof.
  apply (get_readings_reversed_bounds Lcg.source lcg_source_spec); by vm_compute.
Defined.

(** [{"reading_names": []}] passes validation and leaves one reading
    without a name. *)
Lemma get_readings_without_names_witness :
  validate_config no_names = Return ([], []) /\
  exists v g,
    get_readings Lcg.source (new Lcg.source no_names 42).2
    = (Raise IndexError, Build_world Lcg.source (self (new Lcg.source no_names 42).2) g) /\
    g ≠ 42 /\ v = 27.
Proof.
  split; [vm_compute; reflexivity|].
  destruct (get_readings_without_names Lcg.source lcg_source_spec
              (new Lcg.source no_names 42).2 int32)
    as (v & g & Hdraw & Hrun);
    [reflexivity | reflexivity | reflexivity | reflexivity | by vm_compute | by vm_compute |].
  exists v, g. split; [exact Hrun|].
  assert (Some (v, g) = Some (27, 1250496027)) as [= -> ->]
    by (rewrite <- Hdraw; reflexivity).
  split; [discriminate | reflexivity].
Defined.

(** Three derived names, three entries. *)
Lemma get_readings_distinct_names_witness :
  exists readings w',
    get_readings Lcg.source (new Lcg.source three_readings 42).2 = (Return readings, w') /\
    size readings = 3%nat.
Proof.
  assert (get_readings Lcg.source (new Lcg.source three_readings 42).2
          = (Return (dict_of (zip ["value_1"; "value_2"; "value_3"] [27; 64; 53])),
             Build_world Lcg.source (self (new Lcg.source three_readings 42).2)
               1000676753)) as Hrun by reflexivity.
  eexists _, _. split; [exact Hrun|].
  refine (eq_trans (proj1 (get_readings_distinct_names Lcg.source lcg_source_spec
                             _ _ _ _ _ Hrun)) _).
  - change (NoDup (default_names 3)). apply default_names_NoDup.
  - reflexivity.
  - reflexivity.
Defined.

(** ** [do_command]: refusals, round trips and odd sizes *)

Section Dispatch.
Context (R : RandomSource) (HR : RandomSourceSpec R).
Implicit Types (command : gmap string pyval) (w : world R).

Lemma get_config_run command w :
  default PNone (command !! "command") = PStr "get_config" ->
  do_command R command w
  = (Return (ConfigResponse (low (self w)) (high (self w)) (num_readings (self w))
               (reading_names (self w)) (dtype (self w)) (seed (self w))), w).
Proof. intros Hcmd. unfold do_command. run_M. by rewrite Hcmd. Qed.

(** The dispatch looks at strings only: a command value that is not a
    string is refused as missing when it is falsy ([None], [0], [False],
    an empty list) and as not implemented otherwise; the state is kept. *)
Theorem do_command_non_string command w cmd :
  command !! "command" = Some cmd ->
  (forall name, cmd ≠ PStr name) ->
  do_command R command w =
  (Raise (if truthy cmd
          then NotImplementedError (MsgNotImplemented cmd)
          else ValueError MsgMissingCommand), w).
Proof.
  intros Hcmd Hstr.
  assert (forall name, eq_str cmd name = false) as Hne
    by (intros name; destruct cmd; try done; by destruct (Hstr s)).
  destruct (truthy cmd) eqn:Ht.
  - apply do_command_fallthrough; by rewrite ?Hcmd.
  - apply do_command_falsy. by rewrite Hcmd.
Qed.

(** [reseed] refuses a missing or [None] seed and a seed that is not a
    number, each with its own [ValueError], and a NaN or infinite seed
    with the conversion's error; every refusal leaves the state as it
    was. *)
Theorem reseed_refused command w :
  command !! "command" = Some (PStr "reseed") ->
  let new_seed := default PNone (command !! "seed") in
  (new_seed = PNone ->
   do_command R command w = (Raise (ValueError MsgReseedRequiresSeed), w)) /\
  (new_seed ≠ PNone -> isinstance_int_float new_seed = false ->
   do_command R command w = (Raise (ValueError MsgSeedNotInteger), w)) /\
  (forall e, isinstance_int_float new_seed = true -> int_of_number new_seed = Raise e ->
   do_command R command w = (Raise e, w)).
Proof.
  intros Hcmd.
  assert (default PNone (command !! "command") = PStr "reseed") as Hcmd'
    by by rewrite Hcmd.
  cbn zeta. rewrite (reseed_run _ _ _ Hcmd'). cbn zeta.
  split; [by intros ->|]. split.
  - intros Hnone Hnum. rewrite Hnum. by destruct (default PNone (command !! "seed")).
  - intros e Hnum He. rewrite Hnum, He.
    by destruct (default PNone (command !! "seed")).
Qed.

(** A numeric seed that the library refuses: [reseed] raises, but the
    seed is already stored while the random state is the old one, so
    [get_config] afterwards reports a seed that was never applied. *)
Theorem reseed_rejected_seed command query w sd :
  command !! "command" = Some (PStr "reseed") ->
  query !! "command" = Some (PStr "get_config") ->
  isinstance_int_float (default PNone (command !! "seed")) = true ->
  int_of_number (default PNone (command !! "seed")) = Return sd ->
  rng_seed R sd = None ->
  let w' := Build_world R (set_seed (Some sd) (self w)) (np_random w) in
  do_command R command w = (Raise (ValueError MsgNumpy), w') /\
  do_command R query w'
  = (Return (ConfigResponse (low (self w)) (high (self w)) (num_readings (self w))
               (reading_names (self w)) (dtype (self w)) (Some sd)), w').
Proof.
  intros Hcmd Hquery Hnum Hsd Hg. cbn zeta. split.
  - rewrite reseed_run by by rewrite Hcmd. cbn zeta.
    rewrite Hnum, Hsd, Hg. by destruct (default PNone (command !! "seed")).
  - rewrite get_config_run by by rewrite Hquery. reflexivity.
Qed.

(** After a [reseed] that returns, [get_config] reports the new seed
    beside the configuration as it was, and changes nothing. *)
Theorem reseed_then_get_config command query w resp w' :
  command !! "command" = Some (PStr "reseed") ->
  query !! "command" = Some (PStr "get_config") ->
  do_command R command w = (Return resp, w') ->
  exists sd,
    resp = ReseededResponse sd /\
    int_of_number (default PNone (command !! "seed")) = Return sd /\
    do_command R query w'
    = (Return (ConfigResponse (low (self w)) (high (self w)) (num_readings (self w))
                 (reading_names (self w)) (dtype (self w)) (Some sd)), w').
Proof.
  intros Hcmd Hquery Hrun.
  apply reseed_Return in Hrun as (sd & g & Hsd & Hg & -> & ->); [|by rewrite Hcmd].
  exists sd. split; [reflexivity|]. split; [exact Hsd|].
  rewrite get_config_run by by rewrite Hquery. reflexivity.
Qed.

(** After a [reconfigure] that returns, [get_config] reports what the
    attributes said: the three integers, the given or derived names, the
    given or default dtype, and the seed, [None] when none was given. *)
Theorem reconfigure_then_get_config attributes query w w' :
  query !! "command" = Some (PStr "get_config") ->
  reconfigure R attributes w = (Return tt, w') ->
  exists lo hi n,
    config_int attributes "low" 0 = Return lo /\
    config_int attributes "high" 100 = Return hi /\
    config_int attributes "num_readings" 1 = Return n /\
    do_command R query w'
    = (Return (ConfigResponse lo hi n (config_names attributes n)
                 (config_dtype attributes) (seed (self w'))), w') /\
    (attributes !! "seed" = None -> seed (self w') = None) /\
    (forall sd, attributes !! "seed" = Some sd ->
       exists x, int_of_float (number_value sd) = Return x /\ seed (self w') = Some x).
Proof.
  intros Hquery Hrun.
  rewrite (get_config_run query w') by by rewrite Hquery.
  rewrite reconfigure_run in Hrun.
  destruct (config_int attributes "low" 0) as [lo|]; [|discriminate].
  destruct (config_int attributes "high" 100) as [hi|]; [|discriminate].
  destruct (config_int attributes "num_readings" 1) as [n|]; [|discriminate].
  cbn zeta in Hrun. destruct (attributes !! "seed") as [sd|].
  - destruct (int_of_float (number_value sd)) as [x|] eqn:Hx; [|discriminate].
    destruct (rng_seed R x) as [g|]; [|discriminate].
    injection Hrun as <-. exists lo, hi, n. repeat split; try done.
    intros sd' [= <-]. by exists x.
  - injection Hrun as <-. exists lo, hi, n. repeat split; done.
Qed.

End Dispatch.

Section Sizes.
Context (R : RandomSource) (HR : RandomSourceSpec R).
Implicit Types (command : gmap string pyval) (w : world R).

(** Sizes that pass the test [size <= 0] without being positive
    integers: NaN fails in the conversion with [ValueError], plus infinity
    with [OverflowError], both with the state kept; a fraction strictly
    between 0 and 1 is truncated to 0 and answered with an empty batch of
    size 0. *)
Theorem generate_batch_odd_sizes command w :
  command !! "command" = Some (PStr "generate_batch") ->
  (command !! "size" = Some (PFloat FNaN) ->
   do_command R command w = (Raise (ValueError MsgNaNToInt), w)) /\
  (command !! "size" = Some (PFloat (FInf false)) ->
   do_command R command w = (Raise (OverflowError MsgInfToInt), w)) /\
  (forall q name rest dt,
     command !! "size" = Some (PFloat (FFinite q)) ->
     (0 < q)%Q -> (q < 1)%Q ->
     num_readings (self w) = 1 -> reading_names (self w) = name :: rest ->
     getattr_np (dtype (self w)) = Return dt ->
     low (self w) < high (self w) ->
     iinfo_min dt <= low (self w) -> high (self w) <= iinfo_max dt + 1 ->
     exists g,
       do_command R command w
       = (Return (BatchResponse [] 0 name), Build_world R (self w) g)).
Proof.
  intros Hcmd.
  assert (default PNone (command !! "command") = PStr "generate_batch") as Hcmd'
    by by rewrite Hcmd.
  rewrite (generate_batch_run _ _ _ Hcmd'). cbn zeta.
  split; [by intros ->|]. split; [by intros ->|].
  intros q name rest dt -> Hpos Hlt1 H1 Hnames Hdt Hlt Hmin Hmax.
  cbn [from_option id isinstance_int_float le_zero int_of_number int_of_float negb orb].
  assert (Qle_bool q 0 = false) as ->.
  { destruct (Qle_bool q 0) eqn:Hle; [|done].
    apply Qle_bool_iff in Hle. by apply Qle_not_lt in Hle. }
  assert (Qnum q ÷ Z.pos (Qden q) = 0) as ->.
  { apply Z.quot_small. unfold Qlt in Hpos, Hlt1. cbn in Hpos, Hlt1. lia. }
  rewrite Hdt, decide_True by done.
  pose proof (max_size_nonneg R HR) as Hmaxsize.
  destruct (randint_1d_total R HR (np_random w) _ _ 0 dt Hlt Hmin Hmax ltac:(lia))
    as [[batch g] Hdraw].
  rewrite Hdraw, Hnames.
  apply (randint_1d_shape R HR) in Hdraw as [Hlen _].
  destruct batch; [|discriminate]. by exists g.
Qed.

(** Without [reading_names] the stored names are pairwise distinct and
    there are [max(num_readings, 0)] of them: none at all for a count
    that is zero or negative. *)
Theorem reconfigure_derived_names_distinct attributes w lo hi n :
  attributes !! "reading_names" = None ->
  config_int attributes "low" 0 = Return lo ->
  config_int attributes "high" 100 = Return hi ->
  config_int attributes "num_readings" 1 = Return n ->
  NoDup (reading_names (self (reconfigure R attributes w).2)) /\
  Z.of_nat (length (reading_names (self (reconfigure R attributes w).2))) = Z.max 0 n.
Proof.
  intros Hnames Hlo Hhi Hn.
  assert (reading_names (self (reconfigure R attributes w).2) = config_names attributes n)
    as ->.
  { rewrite reconfigure_run, Hlo, Hhi, Hn.
    destruct (attributes !! "seed") as [sd|]; [|done].
    destruct (int_of_float (number_value sd)) as [x|]; [|done].
    by destruct (rng_seed R x). }
  unfold config_names. rewrite Hnames.
  destruct (decide (n = 1)) as [->|Hn1].
  - split; [apply NoDup_singleton | reflexivity].
  - split; [apply default_names_NoDup|].
    unfold default_names. rewrite length_fmap, length_seq. lia.
Qed.

(** Giving the seed in the attributes is the same as configuring without
    it and sending [reseed] with that seed: when the call with the seed
    returns, so do the other two, and they end in the very same state. *)
Theorem reconfigure_seed_is_reseed attributes f w w1 :
  attributes !! "seed" = None ->
  reconfigure R (<["seed" := NumberValue f]> attributes) w = (Return tt, w1) ->
  exists w0 x,
    reconfigure R attributes w = (Return tt, w0) /\
    do_command R {[ "command" := PStr "reseed"; "seed" := PFloat f ]} w0
    = (Return (ReseededResponse x), w1).
Proof.
  intros Hnone Hrun.
  set (attributes' := <["seed" := NumberValue f]> attributes) in *.
  assert (forall key d, key ≠ "seed" ->
            config_int attributes' key d = config_int attributes key d) as Hint.
  { intros key d Hkey. unfold config_int, attr_get, attributes'.
    by rewrite lookup_insert_ne. }
  assert (forall n, config_names attributes' n = config_names attributes n) as Hnames.
  { intros n. unfold config_names, attributes'. by rewrite lookup_insert_ne. }
  assert (config_dtype attributes' = config_dtype attributes) as Hdtype.
  { unfold config_dtype, attr_get, attributes'. by rewrite lookup_insert_ne. }
  rewrite reconfigure_run in Hrun. rewrite !Hint in Hrun by done.
  rewrite reconfigure_run, Hnone.
  destruct (config_int attributes "low" 0) as [lo|]; [|discriminate].
  destruct (config_int attributes "high" 100) as [hi|]; [|discriminate].
  destruct (config_int attributes "num_readings" 1) as [n|]; [|discriminate].
  cbn zeta in Hrun. rewrite Hnames, Hdtype in Hrun.
  unfold attributes' in Hrun. rewrite lookup_insert_eq in Hrun.
  cbn [number_value] in Hrun.
  destruct (int_of_float f) as [x|] eqn:Hx; [|discriminate].
  destruct (rng_seed R x) as [g|] eqn:Hg; [|discriminate].
  injection Hrun as <-. eexists _, x. split; [reflexivity|].
  rewrite reseed_run by (by rewrite lookup_insert_eq).
  rewrite lookup_insert_ne, lookup_singleton_eq by done.
  cbn zeta. cbn [from_option id isinstance_int_float int_of_number self np_random].
  rewrite Hx, Hg. reflexivity.
Qed.

End Sizes.

(** [{"command": 5}] is not implemented; the state stays. *)
Lemma do_command_non_string_witness :
  do_command Lcg.source numeric_command (Build_world Lcg.source configured 9)
  = (Raise (NotImplementedError (MsgNotImplemented (PInt 5))),
     Build_world Lcg.source configured 9).
Proof.
  apply (do_command_non_string Lcg.source numeric_command _ (PInt 5));
    [reflexivity | discriminate].
Defined.

(** A textual seed is refused. *)
Lemma reseed_refused_witness :
  do_command Lcg.source reseed_text (Build_world Lcg.source configured 9)
  = (Raise (ValueError MsgSeedNotInteger), Build_world Lcg.source configured 9).
Proof.
  apply (proj1 (proj2 (reseed_refused Lcg.source reseed_text
                         (Build_world Lcg.source configured 9) eq_refl)));
    [by vm_compute | reflexivity].
Defined.

(** The concrete source refuses -1; the sensor then claims seed -1. *)
Lemma reseed_rejected_seed_witness :
  do_command Lcg.source reseed_minus_1 (Build_world Lcg.source configured 9)
  = (Raise (ValueError MsgNumpy),
     Build_world Lcg.source (set_seed (Some (-1)) configured) 9).
Proof.
  apply (reseed_rejected_seed Lcg.source reseed_minus_1 get_config_command
           (Build_world Lcg.source configured 9) (-1)); reflexivity.
Defined.

(** [reseed] with 42, then [get_config]. *)
Lemma reseed_then_get_config_witness :
  exists sd,
    ReseededResponse 42 = ReseededResponse sd /\
    int_of_number (default PNone (reseed_42 !! "seed")) = Return sd /\
    do_command Lcg.source get_config_command
      (Build_world Lcg.source (set_seed (Some 42) configured) 42)
    = (Return (ConfigResponse 5 10 3 ["x"; "y"; "z"] "int8" (Some sd)),
       Build_world Lcg.source (set_seed (Some 42) configured) 42).
Proof.
  apply (reseed_then_get_config Lcg.source reseed_42 get_config_command
           (Build_world Lcg.source configured 9)); reflexivity.
Defined.

(** [{"low": 5, "high": 10}], then [get_config]. *)
Lemma reconfigure_then_get_config_witness :
  exists lo hi n,
    config_int bounds_5_10 "low" 0 = Return lo /\
    config_int bounds_5_10 "high" 100 = Return hi /\
    config_int bounds_5_10 "num_readings" 1 = Return n /\
    do_command Lcg.source get_config_command
      (Build_world Lcg.source (set_high 10 (set_low 5 init)) 9)
    = (Return (ConfigResponse lo hi n (config_names bounds_5_10 n)
                 (config_dtype bounds_5_10) None),
       Build_world Lcg.source (set_high 10 (set_low 5 init)) 9).
Proof.
  destruct (reconfigure_then_get_config Lcg.source bounds_5_10 get_config_command
              (Build_world Lcg.source configured 9)
              (Build_world Lcg.source (set_high 10 (set_low 5 init)) 9)
              eq_refl eq_refl)
    as (lo & hi & n & Hlo & Hhi & Hn & Hrun & _).
  by exists lo, hi, n.
Defined.

(** Half a row is no row. *)
Lemma generate_batch_odd_sizes_witness :
  do_command Lcg.source batch_inf (Build_world Lcg.source init 42)
  = (Raise (OverflowError MsgInfToInt), Build_world Lcg.source init 42) /\
  exists g, do_command Lcg.source batch_half (Build_world Lcg.source init 42)
            = (Return (BatchResponse [] 0 "value"), Build_world Lcg.source init g).
Proof.
  split.
  - apply (generate_batch_odd_sizes Lcg.source lcg_source_spec batch_inf
             (Build_world Lcg.source init 42) eq_refl). reflexivity.
  - apply (proj2 (proj2 (generate_batch_odd_sizes Lcg.source lcg_source_spec batch_half
                           (Build_world Lcg.source init 42) eq_refl))
             (1 # 2) "value" [] int32);
      [reflexivity | reflexivity | reflexivity | reflexivity | reflexivity | reflexivity
      | reflexivity | by vm_compute | by vm_compute].
Defined.

(** A count of -2 leaves no name at all. *)
Lemma reconfigure_derived_names_distinct_witness :
  Z.of_nat (length (reading_names
     (self (reconfigure Lcg.source negative_count (Build_world Lcg.source configured 9)).2)))
  = 0.
Proof.
  refine (eq_trans (proj2 (reconfigure_derived_names_distinct Lcg.source negative_count
                             (Build_world Lcg.source configured 9) 0 100 (-2) _ _ _ _)) _);
    reflexivity.
Defined.

(** [{"low": 5, "high": 10, "seed": 42}] against [{"low": 5, "high": 10}]
    followed by [reseed] with 42. *)
Lemma reconfigure_seed_is_reseed_witness :
  exists w0 x,
    reconfigure Lcg.source bounds_5_10 (Build_world Lcg.source configured 9)
    = (Return tt, w0) /\
    do_command Lcg.source
      {[ "command" := PStr "reseed"; "seed" := PFloat (FFinite (inject_Z 42)) ]} w0
    = (Return (ReseededResponse x),
       Build_world Lcg.source (set_seed (Some 42) (set_high 10 (set_low 5 init))) 42).
Proof.
  apply (reconfigure_seed_is_reseed Lcg.source bounds_5_10 (FFinite (inject_Z 42))
           (Build_world Lcg.source configured 9)); reflexivity.
Defined.
